(** * Plugin installation command: a shallow embedding of
      [command/common/install_plugin_command.go]

    The command [InstallPluginCommand.Execute] sequences collaborators that it
    reaches through interfaces ([InstallPluginActor], [command.UI],
    [command.Config]) and through a few package functions.  The embedding keeps
    that shape: the collaborators are records of operations over an explicit
    [World]; every call the command makes is recorded, in order, as an [Event];
    [Execute] is a program in a small monad that threads the world, collects
    the events and propagates a Go panic. *)

From Stdlib Require Import ZArith List Lia.
From stdpp Require Import base option strings sorting gmap stringmap.
Import ListNotations.
Local Open Scope string_scope.
Local Open Scope list_scope.

(** ** Data *)

(** The Go [error] values that the command builds or inspects by dynamic type.
    [CollaboratorError] stands for any other error value handed back by a
    collaborator. *)
Inductive error : Type :=
| RequiredArgumentError (ArgumentName : string)
| UnsupportedURLSchemeError (UnsupportedURL : string)
| FileNotFoundError (Path : string)
| PluginInstallationCancelled
| PluginAlreadyInstalledError (Name Version Path : string)
| PluginInvalidError (Path : string)
| CollaboratorError (msg : string).

#[global] Instance error_eq_dec : EqDecision error.
Proof. solve_decision. Defined.

(** [util.PluginFilePath], [util.PluginHTTPPath], and any other value of the
    path-type enumeration. *)
Inductive PluginAsset : Type :=
| PluginFilePath
| PluginHTTPPath
| PluginUnsupportedPathType.

#[global] Instance PluginAsset_eq_dec : EqDecision PluginAsset.
Proof. solve_decision. Defined.

(** Modelled from the spec: the declaration of [configv3.Plugin] is not part of
    the sources; the fields are those of the spec's PluginMetadata
    ([Name], [Version{Major,Minor,Patch}], [Commands] of
    [{Name, HelpText, Alias}]). *)
Record PluginVersion : Type := mkVersion {
  Major : Z;
  Minor : Z;
  Patch : Z
}.

Record CommandSpec : Type := mkCommandSpec {
  CmdName : string;
  HelpText : string;
  Alias : string
}.

Record Plugin : Type := mkPlugin {
  Name : string;
  Version : PluginVersion;
  Commands : list CommandSpec
}.

(** Modelled from the spec: the entry type of the plugin registry is declared
    in a package that is not part of the sources; the spec's PluginRegistry
    maps a plugin name to its metadata and the install path of its binary. *)
Record RegistryEntry : Type := mkEntry {
  Metadata : Plugin;
  InstallPath : string
}.

#[global] Instance PluginVersion_eq_dec : EqDecision PluginVersion.
Proof. solve_decision. Defined.
#[global] Instance CommandSpec_eq_dec : EqDecision CommandSpec.
Proof. solve_decision. Defined.
#[global] Instance Plugin_eq_dec : EqDecision Plugin.
Proof. solve_decision. Defined.

(** The error handed to [shared.HandleError] after a failed validation: an
    invalid-plugin error names the original path, not the temporary copy. *)
Definition retarget (pluginPath : string) (e : error) : error :=
  match e with
  | PluginInvalidError _ => PluginInvalidError pluginPath
  | _ => e
  end.

(** A value substituted in a message template ([map[string]interface{}]). *)
Inductive tvalue : Type :=
| TStr (s : string)
| TInt (n : Z).

Definition tvars : Type := list (string * tvalue).

#[global] Instance tvalue_eq_dec : EqDecision tvalue.
Proof. solve_decision. Defined.

(** Every interaction of the command with a collaborator, with its arguments
    and what came back. *)
Inductive Event : Type :=
| EvLegacyMain (cfTrace : string) (args : list string)
| EvFileExists (path : string) (found : bool)
| EvDisplayHeader (text : string)
| EvDisplayText (template : string) (vars : tvars)
| EvDisplayTextWithFlavor (template : string) (vars : tvars)
| EvDisplayOK
| EvDisplayBoolPrompt (default : bool) (template : string) (vars : tvars)
    (answer : bool) (err : option error)
| EvCreateExecutableCopy (path : string) (copy : string) (err : option error)
| EvFetchPluginFromURL (url : string) (downloaded : string) (err : option error)
| EvStat (path : string) (size : option Z)
| EvNewRPCService (err : option error)
| EvGetAndValidatePlugin (path : string) (plugin : Plugin) (err : option error)
| EvIsPluginInstalled (name : string) (installed : bool)
| EvUninstallPlugin (name : string) (err : option error)
| EvInstallPluginFromPath (path : string) (plugin : Plugin) (err : option error)
| EvRemove (path : string).

#[global] Instance Event_eq_dec : EqDecision Event.
Proof. unfold tvars. solve_decision. Defined.

(** How a Go function is left: by returning a value, or by a panic. *)
Inductive result (A : Type) : Type :=
| Done (a : A)
| Panicked (reason : string).
Arguments Done {A} a.
Arguments Panicked {A} reason.

Section Command.

(** Whatever else the collaborators depend on (the user at the terminal, the
    network, the plugin subprocess), and the handle of the RPC service. *)
Context {Env RPCService CommandList : Type}.

(** The files on disk (path to size in bytes), the plugin registry of the
    configuration (name to entry), and the rest of the environment. *)
Record World : Type := mkWorld {
  files : gmap string Z;
  plugins : gmap string RegistryEntry;
  env : Env
}.

(** ** The command's monad: state, event log and panic *)

Definition Go (A : Type) : Type := World -> result A * World * list Event.

Definition ret {A} (a : A) : Go A := fun w => (Done a, w, []).

Definition bind {A B} (m : Go A) (f : A -> Go B) : Go B :=
  fun w =>
    match m w with
    | (Done a, w1, t1) =>
        match f a w1 with
        | (r, w2, t2) => (r, w2, t1 ++ t2)
        end
    | (Panicked s, w1, t1) => (Panicked s, w1, t1)
    end.

Definition emit (e : Event) : Go unit := fun w => (Done tt, w, [e]).

Definition panic {A} (reason : string) : Go A := fun w => (Panicked reason, w, []).

(** A call that may change the world, and a call that only reads it. *)
Definition call {A} (f : World -> A * World) : Go A :=
  fun w => match f w with (a, w') => (Done a, w', []) end.

Definition query {A} (f : World -> A) : Go A := fun w => (Done (f w), w, []).

(** [defer cleanup] registered before [body]: the cleanup runs when the body
    is left, by return or by panic. *)
Definition with_deferred {A} (cleanup : Go unit) (body : Go A) : Go A :=
  fun w =>
    match body w with
    | (r, w1, t1) =>
        match cleanup w1 with
        | (_, w2, t2) => (r, w2, t1 ++ t2)
        end
    end.

#[global] Instance Go_ret : MRet Go := @ret.
#[global] Instance Go_bind : MBind Go := fun A B f m => bind m f.

(** ** Collaborators *)

(** The interface [InstallPluginActor]. *)
Record InstallPluginActor : Type := mkActor {
  CreateExecutableCopy : string -> World -> (string * option error) * World;
  FetchPluginFromURL : string -> World -> (string * option error) * World;
  FileExists : string -> World -> bool;
  GetAndValidatePlugin :
    RPCService -> CommandList -> string -> World -> (Plugin * option error) * World;
  InstallPluginFromPath : string -> Plugin -> World -> option error * World;
  IsPluginInstalled : string -> World -> bool;
  UninstallPlugin : RPCService -> string -> World -> option error * World
}.

(** [command.UI]: the display methods write to the terminal, which is the
    event log; the prompt reads the user's answer. *)
Record UserInterface : Type := mkUI {
  DisplayBoolPrompt :
    bool -> string -> tvars -> World -> (bool * option error) * World
}.

(** [command.Config]. *)
Record Configuration : Type := mkConfig {
  Experimental : bool
}.

(** Functions of other packages that the command calls. *)
Record Packages : Type := mkPackages {
  (* util.DeterminePathType *)
  DeterminePathType : string -> PluginAsset;
  (* shared.NewRPCService *)
  NewRPCService :
    Configuration -> UserInterface -> World -> (RPCService * option error) * World;
  (* shared.HandleError *)
  HandleError : error -> error;
  (* the package variable Commands *)
  CommandsList : CommandList;
  (* configv3.PluginVersion.String *)
  VersionString : PluginVersion -> string;
  (* oldCmd.Main, os.Getenv, os.Args *)
  oldCmd_Main : string -> list string -> World -> World;
  os_Getenv : string -> World -> string;
  os_Args : list string
}.

Record InstallPluginArgs : Type := mkArgs {
  PathURLOrPluginName : string
}.

Record InstallPluginCommand : Type := mkCommand {
  OptionalArgs : InstallPluginArgs;
  Force : bool;
  RegisteredRepository : string;
  UI : UserInterface;
  Config : Configuration;
  Actor : InstallPluginActor
}.

(** ** The standard library's [os.Stat] and [os.Remove]

    A path names at most one file; the empty path names none (ENOENT). *)
Definition stat_size (path : string) (w : World) : option Z :=
  if decide (path = "") then None else files w !! path.

Definition remove_file (path : string) (w : World) : World :=
  if decide (path = "") then w
  else mkWorld (delete path (files w)) (plugins w) (env w).

(** Modelled from the spec: the actor's [UninstallPlugin] belongs to package
    pluginaction, which is not part of the sources.  By the spec the
    orchestrator's uninstall is Registry.remove plus the deletion of the
    installed binary: the entry of the name is erased and the file at its
    install path deleted; on a name that has no entry nothing happens. *)
Definition Registry_remove (name : string) (w : World) : World :=
  match plugins w !! name with
  | Some entry =>
      mkWorld (delete (InstallPath entry) (files w)) (delete name (plugins w)) (env w)
  | None => w
  end.

Definition os_Stat (path : string) : Go (option Z) :=
  sz ← query (stat_size path);
  emit (EvStat path sz) ;;
  ret sz.

Definition os_Remove (path : string) : Go unit :=
  call (fun w => (tt, remove_file path w)) ;;
  emit (EvRemove path).

(** An actor uninstalls as the spec says when every [UninstallPlugin] that
    reports no error leaves the world of [Registry_remove]. *)
Definition uninstalls_per_spec (actor : InstallPluginActor) : Prop :=
  forall rpc name w w',
    UninstallPlugin actor rpc name w = (None, w') -> w' = Registry_remove name w.

(** ** The methods of the command *)

Variable pkg : Packages.

Section Methods.

Variable cmd : InstallPluginCommand.

Definition promptForInstallPlugin (prompt path : string) : Go (option error) :=
  emit (EvDisplayHeader
          "Attention: Plugins are binaries written by potentially untrusted authors.") ;;
  emit (EvDisplayHeader "Install and use plugins at your own risk.") ;;
  if negb (Force cmd) then
    let vars := [("Path", TStr path)] in
    '(really, promptErr) ← call (DisplayBoolPrompt (UI cmd) false prompt vars);
    emit (EvDisplayBoolPrompt false prompt vars really promptErr) ;;
    match promptErr with
    | Some e => ret (Some e)
    | None =>
        if negb really then ret (Some PluginInstallationCancelled)
        else ret None
    end
  else ret None.

Definition preparePluginForInstallation (pathURLOrPluginName : string)
  : Go (string * option error) :=
  let pathType := DeterminePathType pkg pathURLOrPluginName in
  match pathType with
  | PluginFilePath =>
      found ← query (FileExists (Actor cmd) pathURLOrPluginName);
      emit (EvFileExists pathURLOrPluginName found) ;;
      if negb (found : bool) then
        ret ("", Some (FileNotFoundError pathURLOrPluginName))
      else
        err ← promptForInstallPlugin
                 "Do you want to install the plugin {{.Path}}?" pathURLOrPluginName;
        match err with
        | Some e => ret ("", Some e)
        | None =>
            '(copy, copyErr) ←
              call (CreateExecutableCopy (Actor cmd) pathURLOrPluginName);
            emit (EvCreateExecutableCopy pathURLOrPluginName copy copyErr) ;;
            ret (copy, copyErr)
        end
  | PluginHTTPPath =>
      err ← promptForInstallPlugin
               "Do you want to install the plugin from {{.Path}}?" pathURLOrPluginName;
      match err with
      | Some e => ret ("", Some e)
      | None =>
          emit (EvDisplayText "Starting download of plugin binary from URL..." []) ;;
          '(downloadedPath, fetchErr) ←
            call (FetchPluginFromURL (Actor cmd) pathURLOrPluginName);
          emit (EvFetchPluginFromURL pathURLOrPluginName downloadedPath fetchErr) ;;
          (* both errors are dropped: [downloadedPath, _ :=] and [stat, _ :=] *)
          stat ← os_Stat downloadedPath;
          match stat with
          | None => panic "invalid memory address or nil pointer dereference"
          | Some size =>
              emit (EvDisplayText "{{.Bytes}} bytes downloaded..."
                      [("Bytes", TInt size)]) ;;
              ret (downloadedPath, None)
          end
      end
  | PluginUnsupportedPathType =>
      ret ("", Some (UnsupportedURLSchemeError pathURLOrPluginName))
  end.

Definition uninstallPlugin (plugin : Plugin) (rpcService : RPCService)
  : Go (option error) :=
  emit (EvDisplayText
          "Plugin {{.Name}} {{.Version}} is already installed. Uninstalling existing plugin..."
          [("Name", TStr (Name plugin));
           ("Version", TStr (VersionString pkg (Version plugin)))]) ;;
  uninstallErr ← call (UninstallPlugin (Actor cmd) rpcService (Name plugin));
  emit (EvUninstallPlugin (Name plugin) uninstallErr) ;;
  match uninstallErr with
  | Some e => ret (Some e)
  | None =>
      emit EvDisplayOK ;;
      emit (EvDisplayText "Plugin {{.Name}} successfully uninstalled."
              [("Name", TStr (Name plugin))]) ;;
      ret None
  end.

Definition installPlugin (plugin : Plugin) (pluginPath : string)
  : Go (option error) :=
  emit (EvDisplayTextWithFlavor "Installing plugin {{.Name}}..."
          [("Name", TStr (Name plugin))]) ;;
  installErr ← call (InstallPluginFromPath (Actor cmd) pluginPath plugin);
  emit (EvInstallPluginFromPath pluginPath plugin installErr) ;;
  match installErr with
  | Some e => ret (Some e)
  | None =>
      emit EvDisplayOK ;;
      emit (EvDisplayTextWithFlavor
              "Plugin {{.Name}} {{.Version}} successfully installed."
              [("Name", TStr (Name plugin));
               ("Version", TStr (VersionString pkg (Version plugin)))]) ;;
      ret None
  end.

(** The part of [Execute] that runs under [defer os.Remove(tempPluginPath)]. *)
Definition validateAndInstall (pluginPath tempPluginPath : string)
    (err : option error) : Go (option error) :=
  match err with
  | Some e => ret (Some e)
  | None =>
      '(rpcService, rpcErr) ← call (NewRPCService pkg (Config cmd) (UI cmd));
      emit (EvNewRPCService rpcErr) ;;
      match rpcErr with
      | Some e => ret (Some e)
      | None =>
          '(plugin, valErr) ←
            call (GetAndValidatePlugin (Actor cmd) rpcService (CommandsList pkg)
                    tempPluginPath);
          emit (EvGetAndValidatePlugin tempPluginPath plugin valErr) ;;
          match valErr with
          | Some e =>
              (* the error names the original path, not the temporary copy *)
              ret (Some (HandleError pkg (retarget pluginPath e)))
          | None =>
              installed ← query (IsPluginInstalled (Actor cmd) (Name plugin));
              emit (EvIsPluginInstalled (Name plugin) installed) ;;
              if (installed : bool) then
                if negb (Force cmd) then
                  ret (Some (PluginAlreadyInstalledError
                               (Name plugin)
                               (VersionString pkg (Version plugin))
                               pluginPath))
                else
                  unErr ← uninstallPlugin plugin rpcService;
                  match unErr with
                  | Some e => ret (Some e)
                  | None => installPlugin plugin tempPluginPath
                  end
              else installPlugin plugin tempPluginPath
          end
      end
  end.

Definition Execute : Go (option error) :=
  if negb (Experimental (Config cmd)) then
    cfTrace ← query (os_Getenv pkg "CF_TRACE");
    call (fun w => (tt, oldCmd_Main pkg cfTrace (os_Args pkg) w)) ;;
    emit (EvLegacyMain cfTrace (os_Args pkg)) ;;
    ret None
  else
    let pluginPath := PathURLOrPluginName (OptionalArgs cmd) in
    if decide (pluginPath = "") then
      ret (Some (RequiredArgumentError "PATH_URL_PLUGIN_NAME"))
    else
      '(tempPluginPath, err) ← preparePluginForInstallation pluginPath;
      with_deferred (os_Remove tempPluginPath)
        (validateAndInstall pluginPath tempPluginPath err).

End Methods.

End Command.

Arguments World : clear implicits.

(** ** An in-memory instance of the collaborators

    Used to run the command on concrete inputs. *)
Module Demo.

(** The user's answer to a prompt, the size of what the web serves at a URL,
    and the metadata that a binary of a given size reports over RPC. *)
Record DemoEnv : Type := mkDemoEnv {
  user_confirms : bool;
  web : gmap string Z;
  describe : Z -> option Plugin
}.

Definition DemoWorld : Type := World DemoEnv.

Definition set_files (f : gmap string Z) (w : DemoWorld) : DemoWorld :=
  mkWorld f (plugins w) (env w).

Definition temp_name (w : DemoWorld) : string :=
  fresh_string_of_set "/tmp/plugin" (dom (files w)).

Definition plugin_home (name : string) : string := "/home/cf/plugins/" +:+ name.

Definition no_plugin : Plugin := mkPlugin "" (mkVersion 0 0 0) [].

Definition demoActor : @InstallPluginActor DemoEnv unit unit :=
  {| CreateExecutableCopy path w :=
       match files w !! path with
       | Some c => ((temp_name w, None), set_files (<[temp_name w := c]> (files w)) w)
       | None => (("", Some (CollaboratorError "copy failed")), w)
       end;
     FetchPluginFromURL url w :=
       match web (env w) !! url with
       | Some c => ((temp_name w, None), set_files (<[temp_name w := c]> (files w)) w)
       | None => (("", Some (CollaboratorError "fetch failed")), w)
       end;
     FileExists path w := bool_decide (is_Some (files w !! path));
     GetAndValidatePlugin _ _ path w :=
       match files w !! path ≫= describe (env w) with
       | Some p => ((p, None), w)
       | None => ((no_plugin, Some (PluginInvalidError path)), w)
       end;
     InstallPluginFromPath path p w :=
       match files w !! path with
       | Some c =>
           (None, mkWorld (<[plugin_home (Name p) := c]> (files w))
                          (<[Name p := mkEntry p (plugin_home (Name p))]> (plugins w))
                          (env w))
       | None => (Some (CollaboratorError "install failed"), w)
       end;
     IsPluginInstalled name w := bool_decide (is_Some (plugins w !! name));
     UninstallPlugin _ name w := (None, Registry_remove name w) |}.

Definition demoUI : @UserInterface DemoEnv :=
  {| DisplayBoolPrompt _ _ _ w := ((user_confirms (env w), None), w) |}.

Definition has_prefix (p s : string) : bool :=
  bool_decide (String.substring 0 (String.length p) s = p).

Definition demoPackages : @Packages DemoEnv unit unit :=
  {| DeterminePathType s :=
       if has_prefix "http://" s || has_prefix "https://" s then PluginHTTPPath
       else if has_prefix "ftp://" s then PluginUnsupportedPathType
       else PluginFilePath;
     NewRPCService _ _ w := ((tt, None), w);
     HandleError e := e;
     CommandsList := tt;
     VersionString v := "1.0.0";
     oldCmd_Main _ _ w := w;
     os_Getenv _ _ := "";
     os_Args := ["cf"; "install-plugin"] |}.

Definition echo : Plugin := mkPlugin "echo" (mkVersion 1 0 0) [mkCommandSpec "say-hi" "" ""].

Definition demoEnv (confirm : bool) : DemoEnv :=
  {| user_confirms := confirm;
     web := {[ "https://example.com/echo" := 42%Z ]};
     describe c := if decide (c = 42%Z) then Some echo else None |}.

Definition fresh_world (confirm : bool) : DemoWorld :=
  mkWorld {[ "/downloads/echo" := 42%Z ]} ∅ (demoEnv confirm).

Definition installed_world (confirm : bool) : DemoWorld :=
  mkWorld {[ "/downloads/echo" := 42%Z; plugin_home "echo" := 42%Z ]}
          {[ "echo" := mkEntry echo (plugin_home "echo") ]} (demoEnv confirm).

Definition demoCommand (arg : string) (force experimental : bool)
  : @InstallPluginCommand DemoEnv unit unit :=
  mkCommand (mkArgs arg) force "" demoUI (mkConfig experimental) demoActor.

End Demo.

(** ** Reading the event log *)

Definition staged_path (e : Event) : option string :=
  match e with
  | EvCreateExecutableCopy _ copy _ => Some copy
  | EvFetchPluginFromURL _ downloaded _ => Some downloaded
  | _ => None
  end.

Definition is_staging (e : Event) : bool := bool_decide (is_Some (staged_path e)).

Definition is_uninstall (e : Event) : bool :=
  match e with EvUninstallPlugin _ _ => true | _ => false end.

Definition is_install (e : Event) : bool :=
  match e with EvInstallPluginFromPath _ _ _ => true | _ => false end.

Definition is_prompt (e : Event) : bool :=
  match e with EvDisplayBoolPrompt _ _ _ _ _ => true | _ => false end.

Definition is_validation (e : Event) : bool :=
  match e with
  | EvNewRPCService _ | EvGetAndValidatePlugin _ _ _ => true
  | _ => false
  end.

Definition is_registry_access (e : Event) : bool :=
  match e with
  | EvIsPluginInstalled _ _ | EvUninstallPlugin _ _
  | EvInstallPluginFromPath _ _ _ => true
  | _ => false
  end.

Definition outcome {Env A} (x : result A * World Env * list Event) : result A := x.1.1.
Definition final_world {Env A} (x : result A * World Env * list Event) : World Env := x.1.2.
Definition events {Env A} (x : result A * World Env * list Event) : list Event := x.2.

(** ** The runs of the command

    Each method is characterised by the shapes its runs can take: the result,
    the world left behind and the events, for every way through its body. *)

Section Runs.

Context {Env RPCService CommandList : Type}.
Variable pkg : @Packages Env RPCService CommandList.
Variable cmd : @InstallPluginCommand Env RPCService CommandList.

Abbreviation run A := (result A * World Env * list Event)%type.

Definition warning : list Event :=
  [EvDisplayHeader
     "Attention: Plugins are binaries written by potentially untrusted authors.";
   EvDisplayHeader "Install and use plugins at your own risk."].

Definition path_var (path : string) : tvars := [("Path", TStr path)].

Inductive prompt_run (prompt path : string) (w : World Env)
  : run (option error) -> Prop :=
| prompt_skipped :
    Force cmd = true ->
    prompt_run prompt path w (Done None, w, warning)
| prompt_failed really e w1 :
    Force cmd = false ->
    DisplayBoolPrompt (UI cmd) false prompt (path_var path) w = ((really, Some e), w1) ->
    prompt_run prompt path w
      (Done (Some e), w1,
       warning ++ [EvDisplayBoolPrompt false prompt (path_var path) really (Some e)])
| prompt_declined w1 :
    Force cmd = false ->
    DisplayBoolPrompt (UI cmd) false prompt (path_var path) w = ((false, None), w1) ->
    prompt_run prompt path w
      (Done (Some PluginInstallationCancelled), w1,
       warning ++ [EvDisplayBoolPrompt false prompt (path_var path) false None])
| prompt_confirmed w1 :
    Force cmd = false ->
    DisplayBoolPrompt (UI cmd) false prompt (path_var path) w = ((true, None), w1) ->
    prompt_run prompt path w
      (Done None, w1,
       warning ++ [EvDisplayBoolPrompt false prompt (path_var path) true None]).

Definition file_prompt : string := "Do you want to install the plugin {{.Path}}?".
Definition url_prompt : string := "Do you want to install the plugin from {{.Path}}?".

Definition download_started : Event :=
  EvDisplayText "Starting download of plugin binary from URL..." [].
Definition download_finished (size : Z) : Event :=
  EvDisplayText "{{.Bytes}} bytes downloaded..." [("Bytes", TInt size)].

Inductive prepare_run (path : string) (w : World Env)
  : run (string * option error) -> Prop :=
| prepare_unsupported :
    DeterminePathType pkg path = PluginUnsupportedPathType ->
    prepare_run path w (Done ("", Some (UnsupportedURLSchemeError path)), w, [])
| prepare_file_missing :
    DeterminePathType pkg path = PluginFilePath ->
    FileExists (Actor cmd) path w = false ->
    prepare_run path w
      (Done ("", Some (FileNotFoundError path)), w, [EvFileExists path false])
| prepare_file_refused e w1 tp :
    DeterminePathType pkg path = PluginFilePath ->
    FileExists (Actor cmd) path w = true ->
    prompt_run file_prompt path w (Done (Some e), w1, tp) ->
    prepare_run path w (Done ("", Some e), w1, EvFileExists path true :: tp)
| prepare_file_copied w1 tp copy copyErr w2 :
    DeterminePathType pkg path = PluginFilePath ->
    FileExists (Actor cmd) path w = true ->
    prompt_run file_prompt path w (Done None, w1, tp) ->
    CreateExecutableCopy (Actor cmd) path w1 = ((copy, copyErr), w2) ->
    prepare_run path w
      (Done (copy, copyErr), w2,
       EvFileExists path true :: tp ++ [EvCreateExecutableCopy path copy copyErr])
| prepare_url_refused e w1 tp :
    DeterminePathType pkg path = PluginHTTPPath ->
    prompt_run url_prompt path w (Done (Some e), w1, tp) ->
    prepare_run path w (Done ("", Some e), w1, tp)
| prepare_url_stat_failed w1 tp downloaded fetchErr w2 :
    DeterminePathType pkg path = PluginHTTPPath ->
    prompt_run url_prompt path w (Done None, w1, tp) ->
    FetchPluginFromURL (Actor cmd) path w1 = ((downloaded, fetchErr), w2) ->
    stat_size downloaded w2 = None ->
    prepare_run path w
      (Panicked "invalid memory address or nil pointer dereference", w2,
       tp ++ [download_started; EvFetchPluginFromURL path downloaded fetchErr;
              EvStat downloaded None])
| prepare_url_fetched w1 tp downloaded fetchErr w2 size :
    DeterminePathType pkg path = PluginHTTPPath ->
    prompt_run url_prompt path w (Done None, w1, tp) ->
    FetchPluginFromURL (Actor cmd) path w1 = ((downloaded, fetchErr), w2) ->
    stat_size downloaded w2 = Some size ->
    prepare_run path w
      (Done (downloaded, None), w2,
       tp ++ [download_started; EvFetchPluginFromURL path downloaded fetchErr;
              EvStat downloaded (Some size); download_finished size]).

Definition version_of (plugin : Plugin) : string :=
  VersionString pkg (Version plugin).

Definition uninstall_events (plugin : Plugin) (err : option error) : list Event :=
  [EvDisplayText
     "Plugin {{.Name}} {{.Version}} is already installed. Uninstalling existing plugin..."
     [("Name", TStr (Name plugin)); ("Version", TStr (version_of plugin))];
   EvUninstallPlugin (Name plugin) err]
  ++ match err with
     | Some _ => []
     | None =>
         [EvDisplayOK;
          EvDisplayText "Plugin {{.Name}} successfully uninstalled."
            [("Name", TStr (Name plugin))]]
     end.

Definition install_events (plugin : Plugin) (path : string) (err : option error)
  : list Event :=
  [EvDisplayTextWithFlavor "Installing plugin {{.Name}}..."
     [("Name", TStr (Name plugin))];
   EvInstallPluginFromPath path plugin err]
  ++ match err with
     | Some _ => []
     | None =>
         [EvDisplayOK;
          EvDisplayTextWithFlavor "Plugin {{.Name}} {{.Version}} successfully installed."
            [("Name", TStr (Name plugin)); ("Version", TStr (version_of plugin))]]
     end.

Inductive validate_run (pluginPath temp : string) (w : World Env)
  : option error -> run (option error) -> Prop :=
| validate_not_prepared e :
    validate_run pluginPath temp w (Some e) (Done (Some e), w, [])
| validate_no_rpc rpc e w1 :
    NewRPCService pkg (Config cmd) (UI cmd) w = ((rpc, Some e), w1) ->
    validate_run pluginPath temp w None (Done (Some e), w1, [EvNewRPCService (Some e)])
| validate_rejected rpc w1 plugin e w2 :
    NewRPCService pkg (Config cmd) (UI cmd) w = ((rpc, None), w1) ->
    GetAndValidatePlugin (Actor cmd) rpc (CommandsList pkg) temp w1
      = ((plugin, Some e), w2) ->
    validate_run pluginPath temp w None
      (Done (Some (HandleError pkg (retarget pluginPath e))), w2,
       [EvNewRPCService None; EvGetAndValidatePlugin temp plugin (Some e)])
| validate_already_installed rpc w1 plugin w2 :
    NewRPCService pkg (Config cmd) (UI cmd) w = ((rpc, None), w1) ->
    GetAndValidatePlugin (Actor cmd) rpc (CommandsList pkg) temp w1
      = ((plugin, None), w2) ->
    IsPluginInstalled (Actor cmd) (Name plugin) w2 = true ->
    Force cmd = false ->
    validate_run pluginPath temp w None
      (Done (Some (PluginAlreadyInstalledError
                     (Name plugin) (version_of plugin) pluginPath)), w2,
       [EvNewRPCService None; EvGetAndValidatePlugin temp plugin None;
        EvIsPluginInstalled (Name plugin) true])
| validate_uninstall_failed rpc w1 plugin w2 e w3 :
    NewRPCService pkg (Config cmd) (UI cmd) w = ((rpc, None), w1) ->
    GetAndValidatePlugin (Actor cmd) rpc (CommandsList pkg) temp w1
      = ((plugin, None), w2) ->
    IsPluginInstalled (Actor cmd) (Name plugin) w2 = true ->
    Force cmd = true ->
    UninstallPlugin (Actor cmd) rpc (Name plugin) w2 = (Some e, w3) ->
    validate_run pluginPath temp w None
      (Done (Some e), w3,
       [EvNewRPCService None; EvGetAndValidatePlugin temp plugin None;
        EvIsPluginInstalled (Name plugin) true]
       ++ uninstall_events plugin (Some e))
| validate_reinstalled rpc w1 plugin w2 w3 installErr w4 :
    NewRPCService pkg (Config cmd) (UI cmd) w = ((rpc, None), w1) ->
    GetAndValidatePlugin (Actor cmd) rpc (CommandsList pkg) temp w1
      = ((plugin, None), w2) ->
    IsPluginInstalled (Actor cmd) (Name plugin) w2 = true ->
    Force cmd = true ->
    UninstallPlugin (Actor cmd) rpc (Name plugin) w2 = (None, w3) ->
    InstallPluginFromPath (Actor cmd) temp plugin w3 = (installErr, w4) ->
    validate_run pluginPath temp w None
      (Done installErr, w4,
       [EvNewRPCService None; EvGetAndValidatePlugin temp plugin None;
        EvIsPluginInstalled (Name plugin) true]
       ++ uninstall_events plugin None ++ install_events plugin temp installErr)
| validate_installed rpc w1 plugin w2 installErr w3 :
    NewRPCService pkg (Config cmd) (UI cmd) w = ((rpc, None), w1) ->
    GetAndValidatePlugin (Actor cmd) rpc (CommandsList pkg) temp w1
      = ((plugin, None), w2) ->
    IsPluginInstalled (Actor cmd) (Name plugin) w2 = false ->
    InstallPluginFromPath (Actor cmd) temp plugin w2 = (installErr, w3) ->
    validate_run pluginPath temp w None
      (Done installErr, w3,
       [EvNewRPCService None; EvGetAndValidatePlugin temp plugin None;
        EvIsPluginInstalled (Name plugin) false]
       ++ install_events plugin temp installErr).

(** The runs of [Execute] with the experimental flag on and a non-empty
    argument: the preparation, then validation and installation under the
    deferred removal of the temporary path. *)
Inductive execute_run (w : World Env) : run (option error) -> Prop :=
| execute_panicked reason w1 t1 :
    prepare_run (PathURLOrPluginName (OptionalArgs cmd)) w (Panicked reason, w1, t1) ->
    execute_run w (Panicked reason, w1, t1)
| execute_returned temp err w1 t1 r w2 t2 :
    prepare_run (PathURLOrPluginName (OptionalArgs cmd)) w (Done (temp, err), w1, t1) ->
    validate_run (PathURLOrPluginName (OptionalArgs cmd)) temp w1 err (r, w2, t2) ->
    execute_run w (r, remove_file temp w2, t1 ++ t2 ++ [EvRemove temp]).

(** The three ways through [Execute]. *)
Inductive execute_shape (w : World Env) : Prop :=
| shape_legacy :
    Experimental (Config cmd) = false ->
    Execute pkg cmd w =
      (Done None,
       oldCmd_Main pkg (os_Getenv pkg "CF_TRACE" w) (os_Args pkg) w,
       [EvLegacyMain (os_Getenv pkg "CF_TRACE" w) (os_Args pkg)]) ->
    execute_shape w
| shape_no_argument :
    Experimental (Config cmd) = true ->
    PathURLOrPluginName (OptionalArgs cmd) = "" ->
    Execute pkg cmd w =
      (Done (Some (RequiredArgumentError "PATH_URL_PLUGIN_NAME")), w, []) ->
    execute_shape w
| shape_attempt :
    Experimental (Config cmd) = true ->
    PathURLOrPluginName (OptionalArgs cmd) <> "" ->
    execute_run w (Execute pkg cmd w) ->
    execute_shape w.

End Runs.

(** ** Orchestrator states

    The state an event belongs to.  Plain display calls belong to whichever
    state emits them and carry no state of their own. *)
Inductive State : Type :=
| Resolving
| AwaitingConfirmation
| Staging
| Validating
| ConflictCheck
| Uninstalling
| Committing
| Finished.

#[global] Instance State_eq_dec : EqDecision State.
Proof. solve_decision. Defined.

Definition rank (s : State) : nat :=
  match s with
  | Resolving => 0
  | AwaitingConfirmation => 1
  | Staging => 2
  | Validating => 3
  | ConflictCheck => 4
  | Uninstalling => 5
  | Committing => 6
  | Finished => 7
  end.

Definition state_le (a b : State) : Prop := (rank a <= rank b)%nat.

Definition state_of (e : Event) : option State :=
  match e with
  | EvFileExists _ _ => Some Resolving
  | EvDisplayHeader _ | EvDisplayBoolPrompt _ _ _ _ _ => Some AwaitingConfirmation
  | EvCreateExecutableCopy _ _ _ | EvFetchPluginFromURL _ _ _ | EvStat _ _ =>
      Some Staging
  | EvNewRPCService _ | EvGetAndValidatePlugin _ _ _ => Some Validating
  | EvIsPluginInstalled _ _ => Some ConflictCheck
  | EvUninstallPlugin _ _ => Some Uninstalling
  | EvInstallPluginFromPath _ _ _ => Some Committing
  | EvRemove _ => Some Finished
  | EvLegacyMain _ _ | EvDisplayText _ _ | EvDisplayTextWithFlavor _ _
  | EvDisplayOK => None
  end.

Definition states (t : list Event) : list State := omap state_of t.

(** [spans lo hi t]: the states of [t] never go back, and all lie between the
    ranks [lo] and [hi]. *)
Fixpoint spans (lo hi : nat) (t : list Event) : bool :=
  match t with
  | [] => (lo <=? hi)%nat
  | e :: t' =>
      match state_of e with
      | None => spans lo hi t'
      | Some s => (lo <=? rank s)%nat && (rank s <=? hi)%nat && spans (rank s) hi t'
      end
  end.

(** The order the specification gives, read on an event log: every staging
    call comes before every confirmation prompt. *)
Definition staging_precedes_confirmation (t : list Event) : Prop :=
  forall (i j : nat) (e1 e2 : Event),
    t !! i = Some e1 -> t !! j = Some e2 ->
    is_staging e1 = true -> is_prompt e2 = true -> (i < j)%nat.

(** ** What the collaborators may be assumed to leave alone *)

Section Frame.

Context {Env RPCService CommandList : Type}.

(** Going from [w] to [w'] keeps the registry and every file of [w]. *)
Definition preserves (w w' : World Env) : Prop :=
  plugins w' = plugins w /\
  forall p c, files w !! p = Some c -> files w' !! p = Some c.

(** Prompting, staging, opening the RPC service and validating keep the
    registry and the files already on disk, and a staged copy is a new file. *)
Record keeps_installation (pkg : @Packages Env RPCService CommandList)
    (cmd : @InstallPluginCommand Env RPCService CommandList) : Prop := {
  prompt_preserves : forall d prompt vars w,
    preserves w (DisplayBoolPrompt (UI cmd) d prompt vars w).2;
  copy_preserves : forall path w,
    preserves w (CreateExecutableCopy (Actor cmd) path w).2;
  copy_fresh : forall path w,
    stat_size (CreateExecutableCopy (Actor cmd) path w).1.1 w = None;
  fetch_preserves : forall url w,
    preserves w (FetchPluginFromURL (Actor cmd) url w).2;
  fetch_fresh : forall url w,
    stat_size (FetchPluginFromURL (Actor cmd) url w).1.1 w = None;
  rpc_preserves : forall w,
    preserves w (NewRPCService pkg (Config cmd) (UI cmd) w).2;
  validate_preserves : forall rpc cl path w,
    preserves w (GetAndValidatePlugin (Actor cmd) rpc cl path w).2
}.

End Frame.

(** ** Collaborators that fail

    Variations of the in-memory instance, to run the error branches. *)
Module Faulty.

Import Demo.

(** An actor whose executable copy always fails. *)
Definition brokenCopyActor : @InstallPluginActor DemoEnv unit unit :=
  {| CreateExecutableCopy _ w := (("", Some (CollaboratorError "copy failed")), w);
     FetchPluginFromURL := FetchPluginFromURL demoActor;
     FileExists := FileExists demoActor;
     GetAndValidatePlugin := GetAndValidatePlugin demoActor;
     InstallPluginFromPath := InstallPluginFromPath demoActor;
     IsPluginInstalled := IsPluginInstalled demoActor;
     UninstallPlugin := UninstallPlugin demoActor |}.

(** A terminal that is closed: the prompt comes back with an error. *)
Definition closedUI : @UserInterface DemoEnv :=
  {| DisplayBoolPrompt _ _ _ w := ((true, Some (CollaboratorError "EOF")), w) |}.

(** Packages whose RPC service cannot be started. *)
Definition noRPCPackages : @Packages DemoEnv unit unit :=
  {| DeterminePathType := DeterminePathType demoPackages;
     NewRPCService _ _ w := ((tt, Some (CollaboratorError "no rpc")), w);
     HandleError := HandleError demoPackages;
     CommandsList := tt;
     VersionString := VersionString demoPackages;
     oldCmd_Main := oldCmd_Main demoPackages;
     os_Getenv := os_Getenv demoPackages;
     os_Args := os_Args demoPackages |}.

(** A world whose only file is not a plugin. *)
Definition junk_world : DemoWorld :=
  mkWorld {[ "/downloads/junk" := 7%Z ]} ∅ (demoEnv true).

End Faulty.

(** * Stack actions: a shallow embedding of [v2action]'s stack file

    [GetStack] and [GetStackByName] each make one call to the cloud controller
    client and translate what comes back. *)
Module V2Action.

(** [StackNotFoundError]. *)
Record StackNotFoundError : Type := mkStackNotFound {
  Name : string;
  GUID : string
}.

(** The Go [error] values the stack actions see: the client's
    [ccerror.ResourceNotFoundError], the action's own [StackNotFoundError], and
    any other error value. *)
Inductive action_error : Type :=
| ResourceNotFoundError (Message : string)
| ErrStackNotFound (e : StackNotFoundError)
| OtherError (msg : string).

(** [fmt.Sprintf("Stack with GUID '%s' not found.", e.GUID)] *)
Definition Error (e : StackNotFoundError) : string :=
  "Stack with GUID '" +:+ GUID e +:+ "' not found.".

Definition Warnings : Type := list string.

Section Actor.

(** [ccv2.Stack] with its zero value, and the types and constants of
    [ccv2.Query], declared in a package that is not part of the sources. *)
Context {Stack QueryFilter QueryOperator : Type}.
Variable emptyStack : Stack.
Variable NameFilter : QueryFilter.
Variable EqualOperator : QueryOperator.

Record Query : Type := mkQuery {
  Filter : QueryFilter;
  Operator : QueryOperator;
  Value : string
}.

(** The two methods of the cloud controller client that the actions call. *)
Record CloudControllerClient : Type := mkClient {
  client_GetStack : string -> Stack * Warnings * option action_error;
  client_GetStacks : list Query -> list Stack * Warnings * option action_error
}.

Variable client : CloudControllerClient.

Definition GetStack (guid : string) : Stack * Warnings * option action_error :=
  let '(stack, warnings, err) := client_GetStack client guid in
  match err with
  | Some (ResourceNotFoundError _) =>
      (emptyStack, warnings, Some (ErrStackNotFound (mkStackNotFound "" guid)))
  | _ => (stack, warnings, err)
  end.

Definition GetStackByName (stackName : string)
  : Stack * Warnings * option action_error :=
  let query := [mkQuery NameFilter EqualOperator stackName] in
  let '(stacks, warnings, err) := client_GetStacks client query in
  match err with
  | Some e => (emptyStack, warnings, Some e)
  | None =>
      match stacks with
      | [] => (emptyStack, warnings, Some (ErrStackNotFound (mkStackNotFound stackName "")))
      | first :: _ => (first, warnings, None)
      end
  end.

End Actor.

(** A client that knows the stacks of a list of (guid, name) pairs. *)
Definition listClient (known : list (string * string))
  : @CloudControllerClient (string * string) unit unit :=
  {| client_GetStack guid :=
       match List.find (fun s => bool_decide (s.1 = guid)) known with
       | Some s => (s, ["looked up"], None)
       | None => (("", ""), ["looked up"], Some (ResourceNotFoundError "no such stack"))
       end;
     client_GetStacks query :=
       match query with
       | [q] => (List.filter (fun s => bool_decide (s.2 = Value q)) known,
                 ["listed"], None)
       | _ => ([], [], Some (OtherError "bad query"))
       end |}.

End V2Action.

(** * Properties *)

(** ** Logs whose states never go back *)

Lemma spans_le lo hi t : spans lo hi t = true -> (lo <= hi)%nat.
Proof.
  revert lo. induction t as [|e t IH]; intros lo H; simpl in H.
  - by apply Nat.leb_le.
  - destruct (state_of e) as [s|]; [|by apply IH].
    apply andb_prop in H as [H1 H3]. apply andb_prop in H1 as [H1 H2].
    apply Nat.leb_le in H1, H2. lia.
Qed.

Lemma spans_weaken lo lo' hi hi' t :
  spans lo hi t = true -> (lo' <= lo)%nat -> (hi <= hi')%nat ->
  spans lo' hi' t = true.
Proof.
  revert lo lo'. induction t as [|e t IH]; intros lo lo' H Hlo Hhi; simpl in *.
  - apply Nat.leb_le in H. apply Nat.leb_le. lia.
  - destruct (state_of e) as [s|]; [|by eapply IH].
    apply andb_prop in H as [H1 H3]. apply andb_prop in H1 as [H1 H2].
    apply Nat.leb_le in H1, H2.
    rewrite (IH _ _ H3 (Nat.le_refl _) Hhi), andb_true_r.
    apply andb_true_intro. split; apply Nat.leb_le; lia.
Qed.

Lemma spans_app a b c d t1 t2 :
  spans a b t1 = true -> spans c d t2 = true -> (b <= c)%nat ->
  spans a d (t1 ++ t2) = true.
Proof.
  revert a. induction t1 as [|e t1 IH]; intros a H1 H2 Hbc; simpl in *.
  - apply Nat.leb_le in H1. eapply spans_weaken; [exact H2|lia|lia].
  - destruct (state_of e) as [s|]; [|by apply IH].
    apply andb_prop in H1 as [H H5]. apply andb_prop in H as [H3 H4].
    apply Nat.leb_le in H3, H4. pose proof (spans_le _ _ _ H2).
    rewrite (IH _ H5 H2 Hbc), andb_true_r.
    apply andb_true_intro. split; apply Nat.leb_le; lia.
Qed.

Lemma spans_states lo hi t :
  spans lo hi t = true ->
  Forall (fun s => (lo <= rank s <= hi)%nat) (states t).
Proof.
  revert lo. induction t as [|e t IH]; intros lo H; simpl in *; [constructor|].
  unfold states in *. simpl. destruct (state_of e) as [s|]; simpl; [|by apply IH].
  apply andb_prop in H as [H1 H3]. apply andb_prop in H1 as [H1 H2].
  apply Nat.leb_le in H1, H2. constructor; [lia|].
  eapply Forall_impl; [apply (IH _ H3)|]. simpl. intros; lia.
Qed.

Lemma spans_sorted lo hi t :
  spans lo hi t = true -> StronglySorted state_le (states t).
Proof.
  revert lo. induction t as [|e t IH]; intros lo H; simpl in *; [constructor|].
  unfold states in *. simpl. destruct (state_of e) as [s|] eqn:Hs; simpl; [|by eapply IH].
  apply andb_prop in H as [H1 H3].
  constructor; [by eapply IH|].
  eapply Forall_impl; [apply (spans_states _ _ _ H3)|].
  unfold state_le. simpl. intros; lia.
Qed.

(** In a log whose states never go back, an event of a strictly earlier state
    than [e] stands before [e]. *)
Lemma spans_earlier lo hi t1 e t2 x s sx :
  spans lo hi (t1 ++ e :: t2) = true ->
  state_of e = Some s -> state_of x = Some sx -> (rank sx < rank s)%nat ->
  In x (t1 ++ e :: t2) -> In x t1.
Proof.
  intros Hsp He Hx Hlt Hin.
  apply in_app_or in Hin as [Hin|[->|Hin]]; [done| |].
  - rewrite He in Hx. simplify_eq. lia.
  - exfalso. apply spans_sorted in Hsp. unfold states in Hsp.
    rewrite omap_app in Hsp. simpl in Hsp. rewrite He in Hsp.
    apply StronglySorted_app_1_r in Hsp.
    apply StronglySorted_inv in Hsp as [_ Hall].
    rewrite Forall_forall in Hall.
    assert (sx ∈ omap state_of t2) as Hsx.
    { apply list_elem_of_omap. exists x. split; [|done].
      by apply list_elem_of_In. }
    specialize (Hall _ Hsx). unfold state_le in Hall. lia.
Qed.


Lemma spans_In lo hi t e s :
  spans lo hi t = true -> In e t -> state_of e = Some s ->
  (lo <= rank s <= hi)%nat.
Proof.
  intros Hsp Hin Hs. apply spans_states in Hsp.
  rewrite Forall_forall in Hsp. apply Hsp.
  apply list_elem_of_omap. exists e. split; [by apply list_elem_of_In|done].
Qed.

Lemma staged_path_state e p : staged_path e = Some p -> state_of e = Some Staging.
Proof. by destruct e. Qed.

Lemma is_staging_staged_path e : is_staging e = true -> exists p, staged_path e = Some p.
Proof.
  unfold is_staging. intros H. apply bool_decide_eq_true in H as [p Hp]. by exists p.
Qed.

(** ** Files *)

Lemma remove_file_stat {Env} p (w : World Env) : stat_size p (remove_file p w) = None.
Proof.
  unfold stat_size, remove_file. destruct (decide (p = "")); [done|].
  simpl. apply lookup_delete_eq.
Qed.

Lemma remove_file_empty {Env} (w : World Env) : remove_file "" w = w.
Proof. done. Qed.

Lemma remove_file_plugins {Env} p (w : World Env) :
  plugins (remove_file p w) = plugins w.
Proof. unfold remove_file. by destruct (decide (p = "")). Qed.

Lemma remove_file_other {Env} p q (w : World Env) :
  p <> q -> files (remove_file p w) !! q = files w !! q.
Proof.
  intros Hne. unfold remove_file. destruct (decide (p = "")); [done|].
  simpl. by apply lookup_delete_ne.
Qed.

Lemma Registry_remove_entry {Env} name (w : World Env) :
  plugins (Registry_remove name w) !! name = None.
Proof.
  unfold Registry_remove. destruct (plugins w !! name) eqn:Hentry; [|done].
  simpl. apply lookup_delete_eq.
Qed.

Lemma Registry_remove_binary {Env} name entry (w : World Env) :
  plugins w !! name = Some entry ->
  stat_size (InstallPath entry) (Registry_remove name w) = None.
Proof.
  intros Hentry. unfold Registry_remove, stat_size. rewrite Hentry.
  destruct (decide _); [done|]. simpl. apply lookup_delete_eq.
Qed.

Lemma preserves_refl {Env} (w : World Env) : preserves w w.
Proof. by split. Qed.

Lemma preserves_trans {Env} (w1 w2 w3 : World Env) :
  preserves w1 w2 -> preserves w2 w3 -> preserves w1 w3.
Proof. intros [H1 H2] [H3 H4]. split; [congruence|eauto]. Qed.

Lemma preserves_stat {Env} (w w' : World Env) p :
  preserves w w' -> stat_size p w' = None -> stat_size p w = None.
Proof.
  intros [_ Hfiles]. unfold stat_size. destruct (decide (p = "")); [done|].
  intros Hnone. destruct (files w !! p) as [c|] eqn:Hc; [|done].
  apply Hfiles in Hc. congruence.
Qed.

Lemma preserves_remove {Env} (w w' : World Env) p :
  stat_size p w = None -> preserves w w' -> preserves w (remove_file p w').
Proof.
  intros Hstat [Hplugins Hfiles]. split; [by rewrite remove_file_plugins|].
  intros q c Hq. unfold stat_size in Hstat.
  destruct (decide (p = "")) as [->|Hne]; [rewrite remove_file_empty; eauto|].
  rewrite remove_file_other; [eauto|]. congruence.
Qed.

Section Properties.

Context {Env RPCService CommandList : Type}.
Variable pkg : @Packages Env RPCService CommandList.
Variable cmd : @InstallPluginCommand Env RPCService CommandList.

Ltac unfold_go :=
  unfold mbind, Go_bind, bind, mret, Go_ret, ret, emit, call, query, panic in *.

Ltac in_cases H :=
  repeat match type of H with
         | In _ (_ ++ _) => apply in_app_or in H; destruct H as [H|H]
         | In _ (_ :: _) => destruct H as [H|H]
         | In _ [] => destruct H
         | _ \/ _ => destruct H as [H|H]
         | False => destruct H
         | In _ warning => unfold warning in H
         | In _ (uninstall_events _ _ _) => unfold uninstall_events in H
         | In _ (install_events _ _ _ _) => unfold install_events in H
         | In _ (match ?x with _ => _ end) => destruct x
         end.

Ltac in_solve :=
  unfold install_events, uninstall_events; simpl; rewrite ?in_app_iff; simpl;
  auto 20.

Ltac in_solve_from H :=
  unfold warning in H |- *; simpl in H; rewrite ?in_app_iff in H; simpl in H;
  simpl; rewrite ?in_app_iff; simpl; tauto.

Lemma promptForInstallPlugin_run prompt path w :
  prompt_run cmd prompt path w (promptForInstallPlugin cmd prompt path w).
Proof.
  unfold promptForInstallPlugin. unfold_go.
  destruct (Force cmd) eqn:Hforce; simpl.
  - by constructor.
  - fold (path_var path).
    destruct (DisplayBoolPrompt (UI cmd) false prompt (path_var path) w)
      as [[really [e|]] w1] eqn:Hask; simpl.
    + by eapply prompt_failed.
    + destruct really; simpl; by constructor.
Qed.

Lemma preparePluginForInstallation_run path w :
  prepare_run pkg cmd path w (preparePluginForInstallation pkg cmd path w).
Proof.
  unfold preparePluginForInstallation.
  destruct (DeterminePathType pkg path) eqn:Htype.
  - unfold_go.
    destruct (FileExists (Actor cmd) path w) eqn:Hfound; simpl.
    + pose proof (promptForInstallPlugin_run file_prompt path w) as Hp.
      fold file_prompt.
      destruct (promptForInstallPlugin cmd file_prompt path w) as [[[[e|]|s] w1] tp];
        simpl.
      * rewrite ?app_nil_r. by apply prepare_file_refused.
      * destruct (CreateExecutableCopy (Actor cmd) path w1) as [[copy copyErr] w2] eqn:Hc.
        simpl. by eapply prepare_file_copied.
      * inversion Hp.
    + by apply prepare_file_missing.
  - unfold_go.
    pose proof (promptForInstallPlugin_run url_prompt path w) as Hp.
    fold url_prompt.
    destruct (promptForInstallPlugin cmd url_prompt path w) as [[[[e|]|s] w1] tp];
      simpl.
    + rewrite ?app_nil_r. by apply prepare_url_refused.
    + destruct (FetchPluginFromURL (Actor cmd) path w1) as [[dl fetchErr] w2] eqn:Hf.
      simpl. unfold os_Stat. unfold_go.
      destruct (stat_size dl w2) as [size|] eqn:Hs; simpl.
      * by eapply prepare_url_fetched.
      * rewrite ?app_nil_r. by eapply prepare_url_stat_failed.
    + inversion Hp.
  - by apply prepare_unsupported.
Qed.

Lemma uninstallPlugin_eq plugin rpc w :
  uninstallPlugin pkg cmd plugin rpc w =
    (Done (UninstallPlugin (Actor cmd) rpc (Name plugin) w).1,
     (UninstallPlugin (Actor cmd) rpc (Name plugin) w).2,
     uninstall_events pkg plugin (UninstallPlugin (Actor cmd) rpc (Name plugin) w).1).
Proof.
  unfold uninstallPlugin, uninstall_events, version_of. unfold_go.
  by destruct (UninstallPlugin (Actor cmd) rpc (Name plugin) w) as [[e|] w1].
Qed.

Lemma installPlugin_eq plugin path w :
  installPlugin pkg cmd plugin path w =
    (Done (InstallPluginFromPath (Actor cmd) path plugin w).1,
     (InstallPluginFromPath (Actor cmd) path plugin w).2,
     install_events pkg plugin path (InstallPluginFromPath (Actor cmd) path plugin w).1).
Proof.
  unfold installPlugin, install_events, version_of. unfold_go.
  by destruct (InstallPluginFromPath (Actor cmd) path plugin w) as [[e|] w1].
Qed.

Lemma validateAndInstall_run pluginPath temp err w :
  validate_run pkg cmd pluginPath temp w err
    (validateAndInstall pkg cmd pluginPath temp err w).
Proof.
  unfold validateAndInstall. destruct err as [e|]; [by constructor|].
  unfold_go.
  destruct (NewRPCService pkg (Config cmd) (UI cmd) w) as [[rpc [e|]] w1] eqn:Hrpc; simpl;
    [by eapply validate_no_rpc|].
  destruct (GetAndValidatePlugin (Actor cmd) rpc (CommandsList pkg) temp w1)
    as [[plugin [e|]] w2] eqn:Hval; simpl;
    [by eapply validate_rejected|].
  destruct (IsPluginInstalled (Actor cmd) (Name plugin) w2) eqn:Hinst; simpl.
  - destruct (Force cmd) eqn:Hforce; simpl.
    + rewrite uninstallPlugin_eq.
      destruct (UninstallPlugin (Actor cmd) rpc (Name plugin) w2) as [[e|] w3] eqn:Hun;
        cbn [fst snd].
      * rewrite app_nil_r. by eapply validate_uninstall_failed.
      * rewrite installPlugin_eq.
        destruct (InstallPluginFromPath (Actor cmd) temp plugin w3)
          as [installErr w4] eqn:Hin; cbn [fst snd].
        by eapply validate_reinstalled.
    + by eapply validate_already_installed.
  - rewrite installPlugin_eq.
    destruct (InstallPluginFromPath (Actor cmd) temp plugin w2)
      as [installErr w3] eqn:Hin; cbn [fst snd].
    by eapply validate_installed.
Qed.

Lemma Execute_run w :
  Experimental (Config cmd) = true ->
  PathURLOrPluginName (OptionalArgs cmd) <> "" ->
  execute_run pkg cmd w (Execute pkg cmd w).
Proof.
  intros Hexp Harg. unfold Execute. rewrite Hexp, decide_False by done. simpl.
  unfold_go.
  pose proof (preparePluginForInstallation_run
                (PathURLOrPluginName (OptionalArgs cmd)) w) as Hp.
  destruct (preparePluginForInstallation pkg cmd
              (PathURLOrPluginName (OptionalArgs cmd)) w)
    as [[[[temp err]|reason] w1] t1].
  - unfold with_deferred, os_Remove. unfold_go.
    pose proof (validateAndInstall_run
                  (PathURLOrPluginName (OptionalArgs cmd)) temp err w1) as Hv.
    destruct (validateAndInstall pkg cmd
                (PathURLOrPluginName (OptionalArgs cmd)) temp err w1)
      as [[r w2] t2].
    simpl. by eapply execute_returned.
  - by apply execute_panicked.
Qed.

(** *** The two ways out of [Execute] before any preparation *)

Lemma Execute_not_experimental w :
  Experimental (Config cmd) = false ->
  Execute pkg cmd w =
    (Done None,
     oldCmd_Main pkg (os_Getenv pkg "CF_TRACE" w) (os_Args pkg) w,
     [EvLegacyMain (os_Getenv pkg "CF_TRACE" w) (os_Args pkg)]).
Proof. intros Hexp. unfold Execute. rewrite Hexp. reflexivity. Qed.

Lemma Execute_empty_argument w :
  Experimental (Config cmd) = true ->
  PathURLOrPluginName (OptionalArgs cmd) = "" ->
  Execute pkg cmd w =
    (Done (Some (RequiredArgumentError "PATH_URL_PLUGIN_NAME")), w, []).
Proof. intros Hexp Harg. unfold Execute. rewrite Hexp, Harg. reflexivity. Qed.

Lemma Execute_shape w : execute_shape pkg cmd w.
Proof.
  destruct (Experimental (Config cmd)) eqn:Hexp.
  - destruct (decide (PathURLOrPluginName (OptionalArgs cmd) = "")) as [Harg|Harg].
    + apply shape_no_argument; [done..|by apply Execute_empty_argument].
    + apply shape_attempt; [done..|by apply Execute_run].
  - apply shape_legacy; [done|by apply Execute_not_experimental].
Qed.

(** *** States of the runs *)

Lemma prompt_run_spans prompt path w r w1 t :
  prompt_run cmd prompt path w (r, w1, t) -> spans 1 1 t = true.
Proof. inversion 1; reflexivity. Qed.

Lemma prepare_run_spans path w r w1 t :
  prepare_run pkg cmd path w (r, w1, t) -> spans 0 2 t = true.
Proof.
  inversion 1 as [| |? ? ? ? ? Hp|? ? ? ? ? ? ? Hp|? ? ? ? Hp|? ? ? ? ? ? Hp
                  |? ? ? ? ? ? ? Hp]; subst; try reflexivity;
    apply prompt_run_spans in Hp.
  - apply (spans_app 0 0 1 2 [_]); [reflexivity| |lia].
    eapply spans_weaken; [exact Hp|lia..].
  - apply (spans_app 0 0 1 2 [_]); [reflexivity| |lia].
    apply (spans_app 1 1 2 2); [done|reflexivity|lia].
  - eapply spans_weaken; [exact Hp|lia..].
  - apply (spans_app 0 1 2 2); [|reflexivity|lia].
    eapply spans_weaken; [exact Hp|lia..].
  - apply (spans_app 0 1 2 2); [|reflexivity|lia].
    eapply spans_weaken; [exact Hp|lia..].
Qed.

Lemma validate_run_spans pluginPath temp w err r w1 t :
  validate_run pkg cmd pluginPath temp w err (r, w1, t) -> spans 3 6 t = true.
Proof.
  inversion 1; subst; try reflexivity;
    match goal with |- context [install_events _ _ _ ?x] => by destruct x end.
Qed.

Lemma execute_run_spans w r w1 t :
  execute_run pkg cmd w (r, w1, t) -> spans 0 7 t = true.
Proof.
  inversion 1 as [? ? ? Hp|? ? ? ? ? ? ? Hp Hv]; subst.
  - apply prepare_run_spans in Hp. eapply spans_weaken; [exact Hp|lia..].
  - apply prepare_run_spans in Hp. apply validate_run_spans in Hv.
    apply (spans_app 0 2 3 7); [done| |lia].
    apply (spans_app 3 6 7 7); [done|reflexivity|lia].
Qed.

Lemma Execute_spans w : spans 0 7 (events (Execute pkg cmd w)) = true.
Proof.
  destruct (Execute_shape w) as [_ ->|_ _ ->|_ _ Hrun]; [reflexivity..|].
  destruct (Execute pkg cmd w) as [[r w1] t]. by eapply execute_run_spans.
Qed.

(** *** Where the staged path of a run ends up *)

Lemma prepare_run_staged path w r w1 t e p :
  prepare_run pkg cmd path w (r, w1, t) ->
  In e t -> staged_path e = Some p ->
  match r with
  | Done (temp, _) => p = temp
  | Panicked _ => stat_size p w1 = None
  end.
Proof.
  intros Hrun Hin Hst.
  assert (forall prompt w' r' w1' tp,
             prompt_run cmd prompt path w' (r', w1', tp) -> In e tp -> False)
    as Hprompt.
  { intros ? ? ? ? ? Hp Hin'. apply prompt_run_spans in Hp.
    pose proof (spans_In _ _ _ _ _ Hp Hin' (staged_path_state _ _ Hst)) as Hr.
    simpl in Hr. lia. }
  inversion Hrun; subst; in_cases Hin; subst; simplify_eq/=;
    try done; by exfalso; eauto.
Qed.

Lemma prompt_run_warning prompt path w r w1 t e :
  prompt_run cmd prompt path w (r, w1, t) -> In e warning -> In e t.
Proof. inversion 1; subst; intros Hin; in_cases Hin; subst; simpl; auto. Qed.

Lemma In_states (t : list Event) e s :
  In e t -> state_of e = Some s -> In s (states t).
Proof.
  intros Hin Hs. apply list_elem_of_In, list_elem_of_omap.
  exists e. split; [by apply list_elem_of_In|done].
Qed.

(** *** Claims *)

(** C10. With the experimental flag off, [Execute] only hands over to the
    legacy command and returns nil: the one event of the run is the legacy
    call (no prompt, staging, validation or registry call of this command),
    and the world is the one the legacy command leaves. *)
Theorem Execute_legacy_when_not_experimental w :
  Experimental (Config cmd) = false ->
  Execute pkg cmd w =
    (Done None,
     oldCmd_Main pkg (os_Getenv pkg "CF_TRACE" w) (os_Args pkg) w,
     [EvLegacyMain (os_Getenv pkg "CF_TRACE" w) (os_Args pkg)]).
Proof.
  intros Hexp. unfold Execute.
  destruct (Experimental (Config cmd)); [discriminate Hexp|].
  simpl. unfold_go. reflexivity.
Qed.

(** C9, amended. With the experimental flag on and an empty positional
    argument, [Execute] returns the required-argument error for
    PATH_URL_PLUGIN_NAME with no event at all and the world untouched. *)
Theorem Execute_requires_argument w :
  Experimental (Config cmd) = true ->
  PathURLOrPluginName (OptionalArgs cmd) = "" ->
  Execute pkg cmd w =
    (Done (Some (RequiredArgumentError "PATH_URL_PLUGIN_NAME")), w, []).
Proof.
  intros Hexp Harg. unfold Execute.
  destruct (Experimental (Config cmd)); [|discriminate Hexp].
  simpl. destruct (decide (PathURLOrPluginName (OptionalArgs cmd) = ""));
    [reflexivity|contradiction].
Qed.

(** C3. However [Execute] is left (nil, an error, cancellation, even a
    panic), the path handed back by a staging call names no file of the final
    world. *)
Theorem staged_binary_removed w e staged :
  In e (events (Execute pkg cmd w)) ->
  staged_path e = Some staged ->
  stat_size staged (final_world (Execute pkg cmd w)) = None.
Proof.
  intros Hin Hst.
  destruct (Execute_shape w) as [_ Heq|_ _ Heq|_ _ Hrun].
  - rewrite Heq in Hin. unfold events in Hin; simpl in Hin.
    in_cases Hin; subst; simpl in Hst; done.
  - rewrite Heq in Hin. destruct Hin.
  - destruct (Execute pkg cmd w) as [[r w'] t].
    unfold events, final_world in *; simpl in *.
    inversion Hrun as [? ? ? Hp|temp err w1 t1 ? w2 t2 Hp Hv]; subst.
    + apply (prepare_run_staged _ _ _ _ _ _ _ Hp Hin Hst).
    + in_cases Hin; subst.
      * rewrite (prepare_run_staged _ _ _ _ _ _ _ Hp Hin Hst).
        apply remove_file_stat.
      * apply validate_run_spans in Hv.
        pose proof (spans_In _ _ _ _ _ Hv Hin (staged_path_state _ _ Hst)) as Hr.
        simpl in Hr. lia.
      * done.
Qed.

(** C6, amended. The states of every run follow the order Resolving,
    AwaitingConfirmation, Staging, Validating, ConflictCheck, Uninstalling,
    Committing, Finished: the confirmation comes before the staging.  A run
    of the pipeline that returns nil goes through AwaitingConfirmation,
    Staging, Validating, ConflictCheck, Committing and Finished. *)
Theorem states_in_order w :
  StronglySorted state_le (states (events (Execute pkg cmd w))) /\
  (Experimental (Config cmd) = true ->
   outcome (Execute pkg cmd w) = Done None ->
   Forall (fun s => In s (states (events (Execute pkg cmd w))))
     [AwaitingConfirmation; Staging; Validating; ConflictCheck; Committing;
      Finished]).
Proof.
  split; [eapply spans_sorted, Execute_spans|].
  intros Hexp Hnil.
  destruct (Execute_shape w) as [? _|_ _ Heq|_ _ Hrun]; [congruence| |].
  { rewrite Heq in Hnil. discriminate. }
  destruct (Execute pkg cmd w) as [[r w'] t].
  unfold events, outcome in *; simpl in *. subst r.
  inversion Hrun as [|temp err w1 t1 ? w2 t2 Hp Hv]; subst.
  assert (exists e3 e4 e6,
             In e3 t2 /\ In e4 t2 /\ In e6 t2 /\ err = None /\
             state_of e3 = Some Validating /\ state_of e4 = Some ConflictCheck /\
             state_of e6 = Some Committing)
    as (e3 & e4 & e6 & H3 & H4 & H6 & -> & S3 & S4 & S6).
  { inversion Hv; subst.
    - exists (EvNewRPCService None), (EvIsPluginInstalled (Name plugin) true),
        (EvInstallPluginFromPath temp plugin None).
      split_and!; try done; in_solve.
    - exists (EvNewRPCService None), (EvIsPluginInstalled (Name plugin) false),
        (EvInstallPluginFromPath temp plugin None).
      split_and!; try done; in_solve. }
  assert (exists e1 e2,
             In e1 t1 /\ In e2 t1 /\
             state_of e1 = Some AwaitingConfirmation /\ state_of e2 = Some Staging)
    as (e1 & e2 & H1 & H2 & S1 & S2).
  { inversion Hp as [| | |? ? ? ? ? ? ? Hq| | |? ? ? ? ? ? ? Hq]; subst.
    - eexists (EvDisplayHeader _), (EvCreateExecutableCopy _ _ _).
      split_and!; [|in_solve|done..].
      right. apply in_or_app. left.
      apply (prompt_run_warning _ _ _ _ _ _ _ Hq). by left.
    - eexists (EvDisplayHeader _), (EvFetchPluginFromURL _ _ _).
      split_and!; [|in_solve|done..].
      apply in_or_app. left.
      apply (prompt_run_warning _ _ _ _ _ _ _ Hq). by left. }
  repeat constructor.
  - apply (In_states _ e1); [in_solve|done].
  - apply (In_states _ e2); [in_solve|done].
  - apply (In_states _ e3); [in_solve|done].
  - apply (In_states _ e4); [in_solve|done].
  - apply (In_states _ e6); [in_solve|done].
  - apply (In_states _ (EvRemove temp)); [in_solve|done].
Qed.

(** *** Where the events of each state sit in a run *)

Lemma returned_validation_event path w r w1 t1 t2 temp x s :
  prepare_run pkg cmd path w (r, w1, t1) ->
  In x (t1 ++ t2 ++ [EvRemove temp]) ->
  state_of x = Some s -> (3 <= rank s <= 6)%nat ->
  In x t2.
Proof.
  intros Hp Hin Hs Hr. in_cases Hin; [|done|subst; simpl in Hs; simplify_eq/=; lia].
  apply prepare_run_spans in Hp.
  pose proof (spans_In _ _ _ _ _ Hp Hin Hs). lia.
Qed.

Lemma returned_preparation_event pluginPath temp w err r w1 t1 t2 x s :
  validate_run pkg cmd pluginPath temp w err (r, w1, t2) ->
  In x (t1 ++ t2 ++ [EvRemove temp]) ->
  state_of x = Some s -> (rank s <= 2)%nat ->
  In x t1.
Proof.
  intros Hv Hin Hs Hr. in_cases Hin; [done| |subst; simpl in Hs; simplify_eq/=; lia].
  apply validate_run_spans in Hv.
  pose proof (spans_In _ _ _ _ _ Hv Hin Hs). lia.
Qed.

Lemma spans_no_commit lo hi t :
  spans lo hi t = true -> (hi < 5)%nat ->
  Forall (fun e => is_uninstall e = false /\ is_install e = false) t.
Proof.
  intros Hsp Hhi. apply Forall_forall. intros e Hin.
  apply list_elem_of_In in Hin.
  destruct e; try done;
    pose proof (spans_In _ _ _ _ _ Hsp Hin eq_refl) as Hr; simpl in Hr; lia.
Qed.

Lemma prepare_run_preserves path w temp err w1 t :
  keeps_installation pkg cmd ->
  prepare_run pkg cmd path w (Done (temp, err), w1, t) ->
  preserves w w1 /\ stat_size temp w = None.
Proof.
  intros Hk Hrun.
  assert (forall prompt w' r' w1' tp,
             prompt_run cmd prompt path w' (r', w1', tp) -> preserves w' w1')
    as Hprompt.
  { inversion 1 as [|? ? ? ? Heq|? ? Heq|? ? Heq]; subst;
      [apply preserves_refl|..];
      pose proof (prompt_preserves _ _ Hk false prompt (path_var path) w') as Hpr;
      by rewrite Heq in Hpr. }
  inversion Hrun; subst;
    try match goal with
        | Hp : prompt_run _ _ _ _ _ |- _ => apply Hprompt in Hp
        end;
    try (split; [done || apply preserves_refl|done]).
  - match goal with
    | Hc : CreateExecutableCopy _ _ ?w0 = _ |- _ =>
        pose proof (copy_preserves _ _ Hk path w0) as Hpr;
        pose proof (copy_fresh _ _ Hk path w0) as Hfr;
        rewrite Hc in Hpr, Hfr
    end.
    simpl in *. split; [by eapply preserves_trans|by eapply preserves_stat].
  - match goal with
    | Hf : FetchPluginFromURL _ _ ?w0 = _ |- _ =>
        pose proof (fetch_preserves _ _ Hk path w0) as Hpr;
        pose proof (fetch_fresh _ _ Hk path w0) as Hfr;
        rewrite Hf in Hpr, Hfr
    end.
    simpl in *. split; [by eapply preserves_trans|by eapply preserves_stat].
Qed.

(** *** The confirmation within the preparation *)

Lemma prompt_run_no_staging prompt path w r w1 t e :
  prompt_run cmd prompt path w (r, w1, t) -> In e t -> is_staging e = true -> False.
Proof.
  intros Hp Hin Hst. apply is_staging_staged_path in Hst as [p Hst].
  apply prompt_run_spans in Hp.
  pose proof (spans_In _ _ _ _ _ Hp Hin (staged_path_state _ _ Hst)) as Hr.
  simpl in Hr. lia.
Qed.

Lemma prepare_run_confirmed path w r w1 t e :
  prepare_run pkg cmd path w (r, w1, t) ->
  In e t -> is_staging e = true ->
  (forall h, In h warning -> In h t) /\
  (Force cmd = false ->
   exists prompt, In (EvDisplayBoolPrompt false prompt (path_var path) true None) t).
Proof.
  intros Hrun Hin Hst.
  inversion Hrun; subst; in_cases Hin; subst; try done;
    try (exfalso; by eapply prompt_run_no_staging);
    match goal with
    | Hq : prompt_run _ _ _ _ _ |- _ =>
        pose proof (fun h => prompt_run_warning _ _ _ _ _ _ h Hq) as Hw;
        inversion Hq; subst
    end;
    (split; [intros h Hh; specialize (Hw h Hh); in_solve_from Hw
            |intros Hforce; first [congruence|eexists; in_solve]]).
Qed.

Lemma prepare_run_asked path w r w1 t h :
  prepare_run pkg cmd path w (r, w1, t) ->
  In h t -> state_of h = Some AwaitingConfirmation ->
  (exists x, In x t /\ is_prompt x = true) <-> Force cmd = false.
Proof.
  intros Hrun Hin Hs.
  inversion Hrun; subst; in_cases Hin; subst; try done;
    match goal with
    | Hq : prompt_run _ _ _ _ _ |- _ => inversion Hq; subst
    end;
    (split;
     [intros (x & Hx & Hpx); in_cases Hx; simplify_eq/=; done
     |intros Hforce;
      first [congruence
            |eexists (EvDisplayBoolPrompt _ _ _ _ _); split; [in_solve|done]]]).
Qed.

Lemma prepare_run_warned path w r w1 t :
  prepare_run pkg cmd path w (r, w1, t) ->
  DeterminePathType pkg path = PluginHTTPPath \/
  (DeterminePathType pkg path = PluginFilePath /\
   FileExists (Actor cmd) path w = true) ->
  forall h, In h warning -> In h t.
Proof.
  intros Hrun Hsrc h Hh.
  inversion Hrun; subst; try (destruct Hsrc as [?|[? ?]]; congruence);
    match goal with
    | Hq : prompt_run _ _ _ _ _ |- _ =>
        pose proof (prompt_run_warning _ _ _ _ _ _ h Hq Hh) as Hw
    end;
    in_solve_from Hw.
Qed.

(** C1. When the validated plugin's name is already installed and the
    force flag is not set, [Execute] returns the already-installed error
    with the plugin's name and version, and calls neither the uninstall nor
    the install of the actor.  If prompting, staging and validating leave the
    installation alone, the registry and every file that was on disk (the
    installed binary among them) are as they were. *)
Theorem already_installed_without_force w temp plugin :
  Force cmd = false ->
  In (EvGetAndValidatePlugin temp plugin None) (events (Execute pkg cmd w)) ->
  In (EvIsPluginInstalled (Name plugin) true) (events (Execute pkg cmd w)) ->
  outcome (Execute pkg cmd w) =
    Done (Some (PluginAlreadyInstalledError
                  (Name plugin) (VersionString pkg (Version plugin))
                  (PathURLOrPluginName (OptionalArgs cmd)))) /\
  Forall (fun e => is_uninstall e = false /\ is_install e = false)
    (events (Execute pkg cmd w)) /\
  (keeps_installation pkg cmd -> preserves w (final_world (Execute pkg cmd w))).
Proof.
  intros Hforce Hval Hinst.
  destruct (Execute_shape w) as [_ Heq|_ _ Heq|_ _ Hrun].
  { rewrite Heq in Hval. unfold events in Hval. simpl in Hval. in_cases Hval; done. }
  { rewrite Heq in Hval. destruct Hval. }
  destruct (Execute pkg cmd w) as [[r w'] t].
  unfold events, outcome, final_world in *; simpl in *.
  inversion Hrun as [? ? ? Hp|temp' err w1 t1 ? w2 t2 Hp Hv]; subst.
  { apply prepare_run_spans in Hp.
    pose proof (spans_In _ _ _ _ _ Hp Hval eq_refl) as Hr. simpl in Hr. lia. }
  eapply returned_validation_event in Hval; [|done|reflexivity|simpl; lia].
  eapply returned_validation_event in Hinst; [|done|reflexivity|simpl; lia].
  pose proof (prepare_run_spans _ _ _ _ _ Hp) as Hsp.
  inversion Hv; subst; try congruence; in_cases Hval; simplify_eq.
  - split; [done|]. split.
    + apply Forall_app. split; [apply (spans_no_commit 0 2); [done|lia]|].
      by repeat constructor.
    + intros Hk. destruct (prepare_run_preserves _ _ _ _ _ _ Hk Hp) as [Hpr Hfresh].
      apply preserves_remove; [done|].
      eapply preserves_trans; [exact Hpr|].
      match goal with
      | Hrpc : NewRPCService _ _ _ ?wa = (?rpc, _, ?wb),
        Hgav : GetAndValidatePlugin _ _ _ _ _ = _ |- _ =>
          pose proof (rpc_preserves _ _ Hk wa) as Hpr1; rewrite Hrpc in Hpr1;
          pose proof (validate_preserves _ _ Hk rpc (CommandsList pkg) temp wb)
            as Hpr2;
          rewrite Hgav in Hpr2
      end.
      by eapply preserves_trans.
  - in_cases Hinst; simplify_eq.
Qed.

(** C2. When the validated plugin's name is already installed and the
    force flag is set, [Execute] calls the actor's uninstall for that name,
    on the world in which the registry said the name is installed, before any
    install.  If the uninstall fails, its error is returned and no install is
    ever called.  Otherwise the install of the new plugin runs on the world
    the uninstall left and its result is returned; with an actor that
    uninstalls as the spec says, that world is the one of [Registry_remove]:
    the registry has no entry for the name and the binary the old entry
    pointed to is no longer on disk when the new plugin is installed. *)
Theorem force_reinstall_uninstalls_first w temp plugin :
  Force cmd = true ->
  In (EvGetAndValidatePlugin temp plugin None) (events (Execute pkg cmd w)) ->
  In (EvIsPluginInstalled (Name plugin) true) (events (Execute pkg cmd w)) ->
  exists t1 unErr t2 rpc w1 w2 w3,
    events (Execute pkg cmd w) = t1 ++ EvUninstallPlugin (Name plugin) unErr :: t2 /\
    Forall (fun e => is_install e = false) t1 /\
    GetAndValidatePlugin (Actor cmd) rpc (CommandsList pkg) temp w1
      = ((plugin, None), w2) /\
    IsPluginInstalled (Actor cmd) (Name plugin) w2 = true /\
    UninstallPlugin (Actor cmd) rpc (Name plugin) w2 = (unErr, w3) /\
    match unErr with
    | Some e =>
        outcome (Execute pkg cmd w) = Done (Some e) /\
        final_world (Execute pkg cmd w) = remove_file temp w3 /\
        Forall (fun e => is_install e = false) t2
    | None =>
        (uninstalls_per_spec (Actor cmd) ->
         w3 = Registry_remove (Name plugin) w2 /\
         plugins w3 !! Name plugin = None /\
         forall old, plugins w2 !! Name plugin = Some old ->
                     stat_size (InstallPath old) w3 = None) /\
        exists installErr w4,
          InstallPluginFromPath (Actor cmd) temp plugin w3 = (installErr, w4) /\
          In (EvInstallPluginFromPath temp plugin installErr) t2 /\
          outcome (Execute pkg cmd w) = Done installErr /\
          final_world (Execute pkg cmd w) = remove_file temp w4
    end.
Proof.
  intros Hforce Hval Hinst.
  destruct (Execute_shape w) as [_ Heq|_ _ Heq|_ _ Hrun].
  { rewrite Heq in Hval. unfold events in Hval. simpl in Hval. in_cases Hval; done. }
  { rewrite Heq in Hval. destruct Hval. }
  destruct (Execute pkg cmd w) as [[r w'] t].
  unfold events, outcome, final_world in *; simpl in *.
  inversion Hrun as [? ? ? Hp|temp' err w1 t1 ? w2 t2 Hp Hv]; subst.
  { apply prepare_run_spans in Hp.
    pose proof (spans_In _ _ _ _ _ Hp Hval eq_refl) as Hr. simpl in Hr. lia. }
  eapply returned_validation_event in Hval; [|done|reflexivity|simpl; lia].
  eapply returned_validation_event in Hinst; [|done|reflexivity|simpl; lia].
  pose proof (spans_no_commit _ _ _ (prepare_run_spans _ _ _ _ _ Hp)) as Hsp.
  assert (Forall (fun e => is_install e = false) t1) as Hnone.
  { eapply Forall_impl; [apply Hsp; lia|]. by intros ? [_ ?]. }
  inversion Hv; subst; try congruence; in_cases Hval; simplify_eq.
  - eexists (t1 ++ [_; _; _; _]), _, _, _, _, _, _.
    split_and!.
    + unfold uninstall_events. simpl. rewrite <- app_assoc. simpl. reflexivity.
    + apply Forall_app. split; [done|by repeat constructor].
    + eassumption.
    + eassumption.
    + eassumption.
    + simpl. split_and!; [done|done|by repeat constructor].
  - eexists (t1 ++ [_; _; _; _]), _, _, _, _, _, _.
    split_and!.
    + unfold uninstall_events. simpl. rewrite <- app_assoc. simpl. reflexivity.
    + apply Forall_app. split; [done|by repeat constructor].
    + eassumption.
    + eassumption.
    + eassumption.
    + simpl. split.
      * intros Hspec.
        match goal with
        | Hun : UninstallPlugin _ _ _ _ = (None, _) |- _ =>
            rewrite (Hspec _ _ _ _ Hun)
        end.
        split_and!; [done|apply Registry_remove_entry|].
        intros old Hold. by apply Registry_remove_binary.
      * eexists _, _. split_and!; [eassumption|in_solve|done|done].
  - in_cases Hinst; simplify_eq.
Qed.

(** C5. When the user declines the prompt for a local-path source,
    [Execute] returns the cancellation (not one of the error values), the
    final world is the one the prompt itself left, and the run has no
    staging call, no validation and no registry call. *)
Theorem declined_prompt_cancels w prompt vars :
  DeterminePathType pkg (PathURLOrPluginName (OptionalArgs cmd)) = PluginFilePath ->
  In (EvDisplayBoolPrompt false prompt vars false None) (events (Execute pkg cmd w)) ->
  outcome (Execute pkg cmd w) = Done (Some PluginInstallationCancelled) /\
  final_world (Execute pkg cmd w) =
    (DisplayBoolPrompt (UI cmd) false file_prompt
       (path_var (PathURLOrPluginName (OptionalArgs cmd))) w).2 /\
  Forall (fun e => is_staging e = false /\ is_validation e = false /\
                   is_registry_access e = false)
    (events (Execute pkg cmd w)).
Proof.
  intros Htype Hin.
  destruct (Execute_shape w) as [_ Heq|_ _ Heq|_ _ Hrun].
  { rewrite Heq in Hin. unfold events in Hin. simpl in Hin. in_cases Hin; done. }
  { rewrite Heq in Hin. destruct Hin. }
  destruct (Execute pkg cmd w) as [[r w'] t].
  unfold events, outcome, final_world in *; simpl in *.
  inversion Hrun as [? ? ? Hp|temp' err w1 t1 ? w2 t2 Hp Hv]; subst.
  { inversion Hp; congruence. }
  eapply returned_preparation_event in Hin; [|done|reflexivity|simpl; lia].
  inversion Hp; subst; try congruence; in_cases Hin; try done;
    match goal with
    | Hq : prompt_run _ _ _ _ _ |- _ => inversion Hq; subst
    end;
    in_cases Hin; simplify_eq;
    inversion Hv; subst.
  match goal with Hask : DisplayBoolPrompt _ _ _ _ _ = _ |- _ => rewrite Hask end.
  split_and!; [done|done|].
  by repeat constructor.
Qed.

(** C7. A staging call comes only after both lines of the warning and,
    unless the force flag is set, after a prompt that the user confirmed.
    In a run that shows the warning, a prompt is asked if and only if the
    force flag is not set; and every attempt from a URL or from an existing
    local file shows the warning. *)
Theorem confirmation_before_staging w :
  (forall t1 e t2,
      events (Execute pkg cmd w) = t1 ++ e :: t2 ->
      is_staging e = true ->
      (forall h, In h warning -> In h t1) /\
      (Force cmd = false ->
       exists prompt,
         In (EvDisplayBoolPrompt false prompt
               (path_var (PathURLOrPluginName (OptionalArgs cmd))) true None) t1)) /\
  ((forall h, In h warning -> In h (events (Execute pkg cmd w))) ->
   ((exists x, In x (events (Execute pkg cmd w)) /\ is_prompt x = true)
    <-> Force cmd = false)) /\
  (Experimental (Config cmd) = true ->
   PathURLOrPluginName (OptionalArgs cmd) <> "" ->
   DeterminePathType pkg (PathURLOrPluginName (OptionalArgs cmd)) = PluginHTTPPath \/
   (DeterminePathType pkg (PathURLOrPluginName (OptionalArgs cmd)) = PluginFilePath /\
    FileExists (Actor cmd) (PathURLOrPluginName (OptionalArgs cmd)) w = true) ->
   forall h, In h warning -> In h (events (Execute pkg cmd w))).
Proof.
  pose proof (Execute_spans w) as Hsp.
  destruct (Execute_shape w) as [Hexp Heq|Hexp Harg Heq|_ _ Hrun].
  { rewrite Heq in *. unfold events in *; simpl in *. split_and!.
    - intros [|x [|y l]] e0 t2 Ht He; simplify_eq/=.
    - intros Hw. specialize (Hw _ (or_introl eq_refl)). in_cases Hw; done.
    - congruence. }
  { rewrite Heq in *. unfold events in *; simpl in *. split_and!.
    - intros [|x l] e0 t2 Ht He; simplify_eq/=.
    - intros Hw. destruct (Hw _ (or_introl eq_refl)).
    - congruence. }
  destruct (Execute pkg cmd w) as [[r w'] t].
  unfold events in *; simpl in *.
  assert (exists r1 w1 t1,
             prepare_run pkg cmd (PathURLOrPluginName (OptionalArgs cmd)) w
               (r1, w1, t1) /\
             (forall x s, In x t -> state_of x = Some s ->
                          (rank s <= 2)%nat -> In x t1) /\
             (forall x, In x t1 -> In x t))
    as (r1 & w1 & tp & Hp & Hback & Hforth).
  { inversion Hrun as [? ? ? Hp|temp err w1 t1 ? w2 t2 Hp Hv]; subst.
    - eexists _, _, t. by split_and!.
    - eexists _, _, t1. split_and!; [exact Hp| |intros; in_solve].
      intros x s Hx Hs Hr. by eapply returned_preparation_event. }
  split_and!.
  - intros t1 e t2 -> He.
    destruct (is_staging_staged_path _ He) as [p Hst].
    assert (In e tp) as Hin.
    { eapply Hback; [in_solve|by eapply staged_path_state|simpl; lia]. }
    destruct (prepare_run_confirmed _ _ _ _ _ _ Hp Hin He) as [Hw Hc].
    split.
    + intros h Hh.
      eapply (spans_earlier _ _ _ _ _ h _ AwaitingConfirmation Hsp);
        [by eapply staged_path_state| |simpl; lia|by apply Hforth, Hw].
      unfold warning in Hh. in_cases Hh; by subst.
    + intros Hforce. destruct (Hc Hforce) as [prompt Hin'].
      exists prompt.
      eapply (spans_earlier _ _ _ _ _ _ _ AwaitingConfirmation Hsp);
        [by eapply staged_path_state|done|simpl; lia|by apply Hforth].
  - intros Hw.
    assert (In (EvDisplayHeader "Install and use plugins at your own risk.") tp)
      as Hh.
    { eapply Hback; [apply Hw; in_solve|reflexivity|simpl; lia]. }
    rewrite <- (prepare_run_asked _ _ _ _ _ _ Hp Hh eq_refl).
    split; intros (x & Hx & Hpx); exists x; (split; [|done]).
    + destruct x; try done. eapply Hback; [done|reflexivity|simpl; lia].
    + by apply Hforth.
  - intros _ _ Hsrc h Hh. apply Hforth.
    by eapply prepare_run_warned.
Qed.

(** C4. The error of [FetchPluginFromURL] is never looked at: after a fetch
    that reported an error, [Execute] does not stop with that error; it
    either panics on the missing file information or goes on to open the RPC
    service for validation. *)
Theorem failed_fetch_is_ignored w url downloaded e :
  In (EvFetchPluginFromURL url downloaded (Some e)) (events (Execute pkg cmd w)) ->
  (exists reason, outcome (Execute pkg cmd w) = Panicked reason) \/
  (exists rpcErr, In (EvNewRPCService rpcErr) (events (Execute pkg cmd w))).
Proof.
  intros Hin.
  destruct (Execute_shape w) as [_ Heq|_ _ Heq|_ _ Hrun].
  { rewrite Heq in Hin. unfold events in Hin. simpl in Hin. in_cases Hin; done. }
  { rewrite Heq in Hin. destruct Hin. }
  destruct (Execute pkg cmd w) as [[r w'] t].
  unfold events, outcome in *; simpl in *.
  inversion Hrun as [? ? ? Hp|temp err w1 t1 ? w2 t2 Hp Hv]; subst; [by eauto|].
  right.
  eapply returned_preparation_event in Hin; [|done|reflexivity|simpl; lia].
  inversion Hp; subst; in_cases Hin; try done;
    try (exfalso; by eapply prompt_run_no_staging);
    simplify_eq; inversion Hv; subst; eexists; in_solve.
Qed.

(** C8. A string that is neither an HTTP(S) URL nor an existing local file
    is never looked up in a repository, whatever the repository flag holds:
    with an unsupported path type [Execute] returns the unsupported-scheme
    error at once, and with a file path that names no file it returns the
    file-not-found error; the only calls are the existence check and the
    removal of the empty temporary path. *)
Theorem unmatched_source_fails_without_lookup w :
  Experimental (Config cmd) = true ->
  PathURLOrPluginName (OptionalArgs cmd) <> "" ->
  (DeterminePathType pkg (PathURLOrPluginName (OptionalArgs cmd))
     = PluginUnsupportedPathType ->
   Execute pkg cmd w =
     (Done (Some (UnsupportedURLSchemeError (PathURLOrPluginName (OptionalArgs cmd)))),
      w, [EvRemove ""])) /\
  (DeterminePathType pkg (PathURLOrPluginName (OptionalArgs cmd)) = PluginFilePath ->
   FileExists (Actor cmd) (PathURLOrPluginName (OptionalArgs cmd)) w = false ->
   Execute pkg cmd w =
     (Done (Some (FileNotFoundError (PathURLOrPluginName (OptionalArgs cmd)))),
      w, [EvFileExists (PathURLOrPluginName (OptionalArgs cmd)) false; EvRemove ""])).
Proof.
  intros Hexp Harg.
  split; [intros Htype|intros Htype Hfound];
    unfold Execute; rewrite Hexp; simpl; rewrite decide_False by done;
    unfold preparePluginForInstallation; rewrite Htype; unfold_go;
    rewrite ?Hfound; reflexivity.
Qed.

End Properties.

(** [Execute] never reads the repository flag. *)
Lemma Execute_ignores_repository {Env RPCService CommandList : Type}
    (pkg : @Packages Env RPCService CommandList)
    args force repo repo' ui config actor (w : World Env) :
  Execute pkg (mkCommand args force repo ui config actor) w =
  Execute pkg (mkCommand args force repo' ui config actor) w.
Proof. reflexivity. Qed.

(** * The command run on the in-memory collaborators *)

Section DemoRuns.

Import Demo.

Ltac in_compute :=
  apply list_elem_of_In; apply (bool_decide_unpack _); vm_compute; exact I.

Lemma temp_name_fresh (w : DemoWorld) : files w !! temp_name w = None.
Proof.
  apply not_elem_of_dom. unfold temp_name. apply fresh_string_of_set_fresh.
Qed.

Lemma staged_preserves (w : DemoWorld) c :
  preserves w (set_files (<[temp_name w := c]> (files w)) w).
Proof.
  split; [done|]. intros p c' Hp. simpl.
  rewrite lookup_insert_ne; [done|].
  intros <-. rewrite temp_name_fresh in Hp. discriminate.
Qed.

Lemma staged_fresh (w : DemoWorld) : stat_size (temp_name w) w = None.
Proof.
  unfold stat_size. destruct (decide _); [done|]. apply temp_name_fresh.
Qed.

Lemma demo_keeps_installation arg force experimental :
  keeps_installation demoPackages (demoCommand arg force experimental).
Proof.
  split; simpl.
  - intros. apply preserves_refl.
  - intros path w. destruct (files w !! path);
      [apply staged_preserves|apply preserves_refl].
  - intros path w. destruct (files w !! path); [apply staged_fresh|done].
  - intros url w. destruct (web (env w) !! url);
      [apply staged_preserves|apply preserves_refl].
  - intros url w. destruct (web (env w) !! url); [apply staged_fresh|done].
  - intros. apply preserves_refl.
  - intros _ _ path w. destruct (files w !! path ≫= describe (env w));
      apply preserves_refl.
Qed.

(** A first installation from a local file, confirmed by the user. *)
Example install_from_file_events :
  events (Execute demoPackages (demoCommand "/downloads/echo" false true)
            (fresh_world true)) =
    [EvFileExists "/downloads/echo" true]
    ++ warning
    ++ [EvDisplayBoolPrompt false file_prompt (path_var "/downloads/echo") true None;
        EvCreateExecutableCopy "/downloads/echo" "/tmp/plugin" None;
        EvNewRPCService None;
        EvGetAndValidatePlugin "/tmp/plugin" echo None;
        EvIsPluginInstalled "echo" false]
    ++ install_events demoPackages echo "/tmp/plugin" None
    ++ [EvRemove "/tmp/plugin"].
Proof. vm_compute. reflexivity. Qed.

(** Witness of C1: the same file again, without force, on a world where
    echo is installed. *)
Lemma already_installed_without_force_witness :
  outcome (Execute demoPackages (demoCommand "/downloads/echo" false true)
             (installed_world true)) =
    Done (Some (PluginAlreadyInstalledError "echo" "1.0.0" "/downloads/echo")) /\
  preserves (installed_world true)
    (final_world (Execute demoPackages (demoCommand "/downloads/echo" false true)
                    (installed_world true))).
Proof.
  destruct (already_installed_without_force demoPackages
              (demoCommand "/downloads/echo" false true) (installed_world true)
              "/tmp/plugin" echo) as (Hout & _ & Hkeep);
    [reflexivity|in_compute|in_compute|].
  split; [exact Hout|apply Hkeep, demo_keeps_installation].
Defined.

(** The in-memory actor uninstalls as the spec says. *)
Lemma demo_uninstalls_per_spec : uninstalls_per_spec demoActor.
Proof. intros rpc name w w' Hun. simpl in Hun. by simplify_eq. Qed.

(** Witness of C2: the same, with force.  When the new echo is installed the
    registry has no echo any more and the old binary is off the disk. *)
Lemma force_reinstall_uninstalls_first_witness :
  exists t1 t2 w2 w3 old,
    events (Execute demoPackages (demoCommand "/downloads/echo" true true)
              (installed_world true))
      = t1 ++ EvUninstallPlugin "echo" None :: t2 /\
    Forall (fun e => is_install e = false) t1 /\
    plugins w2 !! "echo" = Some old /\
    UninstallPlugin demoActor tt "echo" w2 = (None, w3) /\
    plugins w3 !! "echo" = None /\
    stat_size (InstallPath old) w3 = None /\
    exists installErr w4,
      InstallPluginFromPath demoActor "/tmp/plugin" echo w3 = (installErr, w4).
Proof.
  destruct (force_reinstall_uninstalls_first demoPackages
              (demoCommand "/downloads/echo" true true) (installed_world true)
              "/tmp/plugin" echo)
    as (t1 & unErr & t2 & [] & w1 & w2 & w3 & Heq & Hnone & Hval & Hinst & Hun & Hrest);
    [reflexivity|in_compute|in_compute|].
  simpl in Hun, Hinst. injection Hun as <- Hw3.
  destruct Hrest as [Hspec (installErr & w4 & Hinstall & _)].
  destruct (Hspec demo_uninstalls_per_spec) as (_ & Hgone & Hbinary).
  apply bool_decide_eq_true in Hinst as [old Hold].
  exists t1, t2, w2, w3, old. split_and!; try done.
  - by rewrite <- Hw3.
  - by apply Hbinary.
  - by exists installErr, w4.
Defined.

(** Witness of C3: the copy staged for a first installation is gone. *)
Lemma staged_binary_removed_witness :
  stat_size "/tmp/plugin"
    (final_world (Execute demoPackages (demoCommand "/downloads/echo" false true)
                    (fresh_world true))) = None.
Proof.
  apply (staged_binary_removed demoPackages _ _
           (EvCreateExecutableCopy "/downloads/echo" "/tmp/plugin" None));
    [in_compute|reflexivity].
Defined.

(** A download that fails: the actor reports the error, the command drops it
    and panics on the missing file information. *)
Example failed_fetch_panics :
  Execute demoPackages (demoCommand "https://example.com/missing" true true)
    (fresh_world true) =
    (Panicked "invalid memory address or nil pointer dereference",
     fresh_world true,
     warning
     ++ [download_started;
         EvFetchPluginFromURL "https://example.com/missing" ""
           (Some (CollaboratorError "fetch failed"));
         EvStat "" None]).
Proof. vm_compute. reflexivity. Qed.

(** Witness of C4: the failed download above. *)
Lemma failed_fetch_is_ignored_witness :
  (exists reason,
      outcome (Execute demoPackages
                 (demoCommand "https://example.com/missing" true true)
                 (fresh_world true)) = Panicked reason) \/
  (exists rpcErr,
      In (EvNewRPCService rpcErr)
        (events (Execute demoPackages
                   (demoCommand "https://example.com/missing" true true)
                   (fresh_world true)))).
Proof.
  apply (failed_fetch_is_ignored demoPackages
           (demoCommand "https://example.com/missing" true true) (fresh_world true)
           "https://example.com/missing" "" (CollaboratorError "fetch failed")).
  in_compute.
Defined.

(** Witness of C5: the user declines. *)
Lemma declined_prompt_cancels_witness :
  outcome (Execute demoPackages (demoCommand "/downloads/echo" false true)
             (fresh_world false)) = Done (Some PluginInstallationCancelled) /\
  final_world (Execute demoPackages (demoCommand "/downloads/echo" false true)
                 (fresh_world false)) = fresh_world false.
Proof.
  destruct (declined_prompt_cancels demoPackages
              (demoCommand "/downloads/echo" false true) (fresh_world false)
              file_prompt (path_var "/downloads/echo")) as (Hout & Hw & _);
    [reflexivity|in_compute|].
  split; [exact Hout|exact Hw].
Defined.

(** C6 as stated fails: in a first installation from a local file the
    prompt is the fourth event and the staging call the fifth. *)
Lemma staging_after_confirmation_counterexample :
  ~ staging_precedes_confirmation
      (events (Execute demoPackages (demoCommand "/downloads/echo" false true)
                 (fresh_world true))).
Proof.
  intros Hclaim. rewrite install_from_file_events in Hclaim.
  specialize (Hclaim 4 3 _ _ eq_refl eq_refl eq_refl eq_refl). lia.
Qed.

(** Witness of C6, amended: the states of a first installation. *)
Lemma states_in_order_witness :
  states (events (Execute demoPackages (demoCommand "/downloads/echo" false true)
                    (fresh_world true))) =
    [Resolving; AwaitingConfirmation; AwaitingConfirmation; AwaitingConfirmation;
     Staging; Validating; Validating; ConflictCheck; Committing; Finished] /\
  StronglySorted state_le
    (states (events (Execute demoPackages (demoCommand "/downloads/echo" false true)
                       (fresh_world true)))).
Proof.
  split; [by rewrite install_from_file_events|].
  apply (states_in_order demoPackages (demoCommand "/downloads/echo" false true)).
Defined.

(** Witness of C7: the staging call of a first installation comes after the
    warning and the confirmed prompt. *)
Lemma confirmation_before_staging_witness :
  exists prompt,
    In (EvDisplayBoolPrompt false prompt (path_var "/downloads/echo") true None)
      ([EvFileExists "/downloads/echo" true] ++ warning
       ++ [EvDisplayBoolPrompt false file_prompt (path_var "/downloads/echo")
             true None]).
Proof.
  destruct (confirmation_before_staging demoPackages
              (demoCommand "/downloads/echo" false true) (fresh_world true))
    as (Hbefore & _ & _).
  destruct (Hbefore
              ([EvFileExists "/downloads/echo" true] ++ warning
               ++ [EvDisplayBoolPrompt false file_prompt
                     (path_var "/downloads/echo") true None])
              (EvCreateExecutableCopy "/downloads/echo" "/tmp/plugin" None)
              ([EvNewRPCService None;
                EvGetAndValidatePlugin "/tmp/plugin" echo None;
                EvIsPluginInstalled "echo" false]
               ++ install_events demoPackages echo "/tmp/plugin" None
               ++ [EvRemove "/tmp/plugin"]))
    as [_ Hprompt]; [vm_compute; reflexivity|reflexivity|].
  by apply Hprompt.
Defined.

(** Witness of C8: the usage example [-r My-Repo plugin-echo]. *)
Lemma unmatched_source_fails_without_lookup_witness :
  Execute demoPackages
    (mkCommand (mkArgs "plugin-echo") false "My-Repo" demoUI (mkConfig true) demoActor)
    (fresh_world true) =
    (Done (Some (FileNotFoundError "plugin-echo")), fresh_world true,
     [EvFileExists "plugin-echo" false; EvRemove ""]).
Proof.
  destruct (unmatched_source_fails_without_lookup demoPackages
              (mkCommand (mkArgs "plugin-echo") false "My-Repo" demoUI
                 (mkConfig true) demoActor)
              (fresh_world true)) as [_ Hfile]; [reflexivity|done|].
  apply Hfile; reflexivity.
Defined.

(** C9 as stated fails: with the experimental flag off, an empty argument
    is handed to the legacy command and nil is returned. *)
Lemma empty_argument_legacy_counterexample :
  ~ (PathURLOrPluginName (OptionalArgs (demoCommand "" false false)) = "" ->
     outcome (Execute demoPackages (demoCommand "" false false) (fresh_world true))
       = Done (Some (RequiredArgumentError "PATH_URL_PLUGIN_NAME"))).
Proof. intros Hclaim. specialize (Hclaim eq_refl). discriminate Hclaim. Qed.

(** Witness of C9, amended. *)
Lemma Execute_requires_argument_witness :
  Execute demoPackages (demoCommand "" false true) (fresh_world true) =
    (Done (Some (RequiredArgumentError "PATH_URL_PLUGIN_NAME")), fresh_world true, []).
Proof.
  apply (Execute_requires_argument demoPackages (demoCommand "" false true));
    reflexivity.
Defined.

(** Witness of C10. *)
Lemma Execute_legacy_when_not_experimental_witness :
  Execute demoPackages (demoCommand "/downloads/echo" false false) (fresh_world true) =
    (Done None, fresh_world true, [EvLegacyMain "" ["cf"; "install-plugin"]]).
Proof.
  apply (Execute_legacy_when_not_experimental demoPackages
           (demoCommand "/downloads/echo" false false));
    reflexivity.
Defined.

End DemoRuns.

(** * Further properties of the command *)

Section Further.

Context {Env RPCService CommandList : Type}.
Variable pkg : @Packages Env RPCService CommandList.
Variable cmd : @InstallPluginCommand Env RPCService CommandList.

Ltac in_cases H :=
  repeat match type of H with
         | In _ (_ ++ _) => apply in_app_or in H; destruct H as [H|H]
         | In _ (_ :: _) => destruct H as [H|H]
         | In _ [] => destruct H
         | _ \/ _ => destruct H as [H|H]
         | False => destruct H
         | In _ warning => unfold warning in H
         | In _ (uninstall_events _ _ _) => unfold uninstall_events in H
         | In _ (install_events _ _ _ _) => unfold install_events in H
         | In _ (match ?x with _ => _ end) => destruct x
         end.

Ltac in_solve :=
  unfold install_events, uninstall_events; simpl; rewrite ?in_app_iff; simpl;
  auto 20.

(** Leaves an attempt ([execute_run]) from a hypothesis [H] that some event is
    in the log of [Execute]; the legacy and the empty-argument runs have no
    such event. *)
Ltac attempt_of H w Hrun :=
  destruct (Execute_shape pkg cmd w) as [_ Heq|_ _ Heq|_ _ Hrun];
  [rewrite Heq in H; unfold events in H; simpl in H; in_cases H; done
  |rewrite Heq in H; destruct H
  |].

Lemma spans_class (P : Event -> Prop) lo hi t :
  (forall e s, state_of e = Some s -> (lo <= rank s <= hi)%nat -> P e) ->
  (forall e, state_of e = None -> P e) ->
  spans lo hi t = true -> Forall P t.
Proof.
  intros Hin Hnone Hsp. apply Forall_forall. intros e He.
  apply list_elem_of_In in He.
  destruct (state_of e) as [s|] eqn:Hs; [|by apply Hnone].
  eapply Hin; [done|]. by eapply spans_In.
Qed.

(** No validation and no registry call among events up to staging. *)
Lemma spans_before_validation lo hi t :
  spans lo hi t = true -> (hi < 3)%nat ->
  Forall (fun e => is_validation e = false /\ is_registry_access e = false) t.
Proof.
  intros Hsp Hhi. eapply spans_class; [| |exact Hsp].
  - intros e s Hs Hr. destruct e; simplify_eq/=; try done; lia.
  - intros e Hs. by destruct e.
Qed.

Lemma spans_before_staging lo hi t :
  spans lo hi t = true -> (hi < 2)%nat ->
  Forall (fun e => is_staging e = false /\ is_validation e = false /\
                   is_registry_access e = false) t.
Proof.
  intros Hsp Hhi. eapply spans_class; [| |exact Hsp].
  - intros e s Hs Hr. destruct e; simplify_eq/=; try done; lia.
  - intros e Hs. by destruct e.
Qed.

Lemma spans_no_prompt lo hi t :
  spans lo hi t = true -> (1 < lo)%nat -> Forall (fun e => is_prompt e = false) t.
Proof.
  intros Hsp Hlo. eapply spans_class; [| |exact Hsp].
  - intros e s Hs Hr. destruct e; simplify_eq/=; try done; lia.
  - intros e Hs. by destruct e.
Qed.

Lemma spans_not_finished lo hi t :
  spans lo hi t = true -> (hi < 7)%nat ->
  Forall (fun e => state_of e <> Some Finished) t.
Proof.
  intros Hsp Hhi. eapply spans_class; [| |exact Hsp].
  - intros e s Hs Hr Hf. rewrite Hs in Hf. simplify_eq/=. lia.
  - intros e Hs. congruence.
Qed.

Lemma prompt_run_preserves prompt path w r w1 t :
  keeps_installation pkg cmd ->
  prompt_run cmd prompt path w (r, w1, t) -> preserves w w1.
Proof.
  intros Hk. inversion 1 as [|? ? ? ? Heq|? ? Heq|? ? Heq]; subst;
    [apply preserves_refl|..];
    pose proof (prompt_preserves _ _ Hk false prompt (path_var path) w) as Hpr;
    by rewrite Heq in Hpr.
Qed.

Lemma prepare_run_panicked_preserves path w reason w1 t :
  keeps_installation pkg cmd ->
  prepare_run pkg cmd path w (Panicked reason, w1, t) -> preserves w w1.
Proof.
  intros Hk Hrun. inversion Hrun; subst.
  match goal with
  | Hp : prompt_run _ _ _ _ _, Hf : FetchPluginFromURL _ _ ?w0 = _ |- _ =>
      apply (prompt_run_preserves _ _ _ _ _ _ Hk) in Hp;
      pose proof (fetch_preserves _ _ Hk path w0) as Hpr; rewrite Hf in Hpr
  end.
  by eapply preserves_trans.
Qed.

(** X1. With the experimental flag on, a run of [Execute] that calls neither
    the uninstall nor the install of the actor (an argument error, a refusal,
    a failed staging or validation, an already-installed plugin, even a panic)
    leaves the registry and every file that was on disk as they were, provided
    prompting, staging and validating leave the installation alone. *)
Theorem attempt_without_commit_preserves w :
  Experimental (Config cmd) = true ->
  keeps_installation pkg cmd ->
  Forall (fun e => is_uninstall e = false /\ is_install e = false)
    (events (Execute pkg cmd w)) ->
  preserves w (final_world (Execute pkg cmd w)).
Proof.
  intros Hexp Hk Hnone.
  destruct (Execute_shape pkg cmd w) as [? _|_ _ Heq|_ _ Hrun]; [congruence| |].
  { rewrite Heq. apply preserves_refl. }
  destruct (Execute pkg cmd w) as [[r w'] t].
  unfold events, final_world in *; simpl in *.
  inversion Hrun as [? ? ? Hp|temp err w1 t1 ? w2 t2 Hp Hv]; subst.
  { by eapply prepare_run_panicked_preserves. }
  destruct (prepare_run_preserves _ _ _ _ _ _ _ _ Hk Hp) as [Hpr Hfresh].
  apply preserves_remove; [done|].
  eapply preserves_trans; [exact Hpr|].
  apply Forall_app in Hnone as [_ Hnone]. apply Forall_app in Hnone as [Hnone _].
  rewrite Forall_forall in Hnone.
  assert (forall e, In e t2 -> is_uninstall e = false /\ is_install e = false)
    as Hno by (intros e He; by apply Hnone, list_elem_of_In).
  inversion Hv; subst;
    try (match goal with
         | Hu : UninstallPlugin _ _ ?n _ = (?ue, _) |- _ =>
             exfalso; destruct (Hno (EvUninstallPlugin n ue)) as [? _];
             [in_solve|done]
         | Hi : InstallPluginFromPath _ ?p ?pl _ = (?ie, _) |- _ =>
             exfalso; destruct (Hno (EvInstallPluginFromPath p pl ie)) as [_ ?];
             [in_solve|done]
         end);
    try apply preserves_refl;
    repeat match goal with
    | Hrpc : NewRPCService _ _ _ ?wa = _ |- _ =>
        pose proof (rpc_preserves _ _ Hk wa) as Hpr1; rewrite Hrpc in Hpr1;
        clear Hrpc
    | Hgav : GetAndValidatePlugin _ ?rpc _ _ ?wb = _ |- _ =>
        pose proof (validate_preserves _ _ Hk rpc (CommandsList pkg) temp wb) as Hpr2;
        rewrite Hgav in Hpr2; clear Hgav
    end;
    simpl in *; first [done|exact (preserves_trans _ _ _ Hpr1 Hpr2)].
Qed.

(** X2. When [CreateExecutableCopy] reports an error, [Execute] returns that
    very error, goes on to no validation and no registry call, and ends by
    removing the path the failed copy handed back. *)
Theorem copy_error_propagates w path copy e :
  In (EvCreateExecutableCopy path copy (Some e)) (events (Execute pkg cmd w)) ->
  outcome (Execute pkg cmd w) = Done (Some e) /\
  Forall (fun x => is_validation x = false /\ is_registry_access x = false)
    (events (Execute pkg cmd w)) /\
  exists t, events (Execute pkg cmd w) = t ++ [EvRemove copy].
Proof.
  intros Hin. attempt_of Hin w Hrun.
  destruct (Execute pkg cmd w) as [[r w'] t].
  unfold events, outcome in *; simpl in *.
  inversion Hrun as [? ? ? Hp|temp err w1 t1 ? w2 t2 Hp Hv]; subst.
  { inversion Hp; subst. in_cases Hin; try done.
    exfalso. by eapply prompt_run_no_staging. }
  eapply returned_preparation_event in Hin; [|done|reflexivity|simpl; lia].
  pose proof (prepare_run_spans _ _ _ _ _ _ _ Hp) as Hsp.
  inversion Hp; subst; in_cases Hin; try done;
    try (exfalso; by eapply prompt_run_no_staging);
    simplify_eq; inversion Hv; subst.
  split_and!; [done| |by eexists].
  apply Forall_app. split; [apply (spans_before_validation 0 2); [done|lia]|].
  by repeat constructor.
Qed.

(** X3. When the prompt itself fails, [Execute] returns the prompt's error,
    whatever answer came with it, and makes no staging, validation or registry
    call. *)
Theorem prompt_error_propagates w d prompt vars really e :
  In (EvDisplayBoolPrompt d prompt vars really (Some e)) (events (Execute pkg cmd w)) ->
  outcome (Execute pkg cmd w) = Done (Some e) /\
  Forall (fun x => is_staging x = false /\ is_validation x = false /\
                   is_registry_access x = false)
    (events (Execute pkg cmd w)).
Proof.
  intros Hin. attempt_of Hin w Hrun.
  destruct (Execute pkg cmd w) as [[r w'] t].
  unfold events, outcome in *; simpl in *.
  inversion Hrun as [? ? ? Hp|temp err w1 t1 ? w2 t2 Hp Hv]; subst.
  { inversion Hp; subst. in_cases Hin; try done.
    match goal with Hq : prompt_run _ _ _ _ _ |- _ => inversion Hq; subst end;
      in_cases Hin; done. }
  eapply returned_preparation_event in Hin; [|done|reflexivity|simpl; lia].
  inversion Hp; subst; in_cases Hin; try done;
    match goal with Hq : prompt_run _ _ _ _ _ |- _ => inversion Hq; subst end;
    in_cases Hin; simplify_eq; inversion Hv; subst;
    (split; [done|by repeat constructor]).
Qed.

(** X4. When the RPC service cannot be started, [Execute] returns that error
    and never calls the plugin validation nor the registry. *)
Theorem rpc_failure_stops w e :
  In (EvNewRPCService (Some e)) (events (Execute pkg cmd w)) ->
  outcome (Execute pkg cmd w) = Done (Some e) /\
  Forall (fun x => is_registry_access x = false /\
                   forall p pl er, x <> EvGetAndValidatePlugin p pl er)
    (events (Execute pkg cmd w)).
Proof.
  intros Hin. attempt_of Hin w Hrun.
  destruct (Execute pkg cmd w) as [[r w'] t].
  unfold events, outcome in *; simpl in *.
  inversion Hrun as [? ? ? Hp|temp err w1 t1 ? w2 t2 Hp Hv]; subst.
  { apply prepare_run_spans in Hp.
    pose proof (spans_In _ _ _ _ _ Hp Hin eq_refl) as Hr. simpl in Hr. lia. }
  eapply returned_validation_event in Hin; [|done|reflexivity|simpl; lia].
  pose proof (prepare_run_spans _ _ _ _ _ _ _ Hp) as Hsp.
  inversion Hv; subst; in_cases Hin; simplify_eq.
  split; [done|].
  apply Forall_app. split; [|by repeat constructor].
  eapply Forall_impl; [apply (spans_before_validation 0 2); [done|lia]|].
  intros x [Hval Hreg]. split; [done|]. intros p pl er ->. done.
Qed.

(** X5. When the plugin validation fails, [Execute] returns what
    [shared.HandleError] makes of the error, in which an invalid-plugin error
    names the path the user gave and not the temporary copy; the registry is
    never consulted or changed. *)
Theorem validation_failure_reported w temp plugin e :
  In (EvGetAndValidatePlugin temp plugin (Some e)) (events (Execute pkg cmd w)) ->
  outcome (Execute pkg cmd w) =
    Done (Some (HandleError pkg
                  (match e with
                   | PluginInvalidError _ =>
                       PluginInvalidError (PathURLOrPluginName (OptionalArgs cmd))
                   | _ => e
                   end))) /\
  Forall (fun x => is_registry_access x = false) (events (Execute pkg cmd w)).
Proof.
  intros Hin. attempt_of Hin w Hrun.
  destruct (Execute pkg cmd w) as [[r w'] t].
  unfold events, outcome in *; simpl in *.
  inversion Hrun as [? ? ? Hp|temp' err w1 t1 ? w2 t2 Hp Hv]; subst.
  { apply prepare_run_spans in Hp.
    pose proof (spans_In _ _ _ _ _ Hp Hin eq_refl) as Hr. simpl in Hr. lia. }
  eapply returned_validation_event in Hin; [|done|reflexivity|simpl; lia].
  pose proof (prepare_run_spans _ _ _ _ _ _ _ Hp) as Hsp.
  inversion Hv; subst; in_cases Hin; simplify_eq.
  split; [done|].
  apply Forall_app. split; [|by repeat constructor].
  eapply Forall_impl; [apply (spans_before_validation 0 2); [done|lia]|].
  by intros x [_ ?].
Qed.

(** X6. With the force flag set no prompt is ever asked. *)
Theorem force_never_prompts w :
  Force cmd = true ->
  Forall (fun e => is_prompt e = false) (events (Execute pkg cmd w)).
Proof.
  intros Hforce.
  destruct (Execute_shape pkg cmd w) as [_ Heq|_ _ Heq|_ _ Hrun];
    [rewrite Heq; by repeat constructor..|].
  destruct (Execute pkg cmd w) as [[r w'] t]. unfold events; simpl.
  assert (forall path w0 r0 w1 t1,
             prepare_run pkg cmd path w0 (r0, w1, t1) ->
             Forall (fun e => is_prompt e = false) t1) as Hprep.
  { intros path w0 r0 w1 t1 Hp.
    inversion Hp; subst;
      try match goal with
          | Hq : prompt_run _ _ _ _ _ |- _ => inversion Hq; subst; try congruence
          end;
      by repeat constructor. }
  inversion Hrun as [? ? ? Hp|temp err w1 t1 ? w2 t2 Hp Hv]; subst;
    [by eapply Hprep|].
  apply Forall_app. split; [by eapply Hprep|].
  apply Forall_app. split; [|by repeat constructor].
  apply validate_run_spans in Hv. apply (spans_no_prompt 3 6); [done|lia].
Qed.

(** X7. The actor's uninstall is called only with the force flag set, only
    for the name of the plugin that was just validated, and only after the
    registry said that this name is installed. *)
Theorem uninstall_requires_force w name err :
  In (EvUninstallPlugin name err) (events (Execute pkg cmd w)) ->
  Force cmd = true /\
  In (EvIsPluginInstalled name true) (events (Execute pkg cmd w)) /\
  exists temp plugin,
    Name plugin = name /\
    In (EvGetAndValidatePlugin temp plugin None) (events (Execute pkg cmd w)).
Proof.
  intros Hin. attempt_of Hin w Hrun.
  destruct (Execute pkg cmd w) as [[r w'] t].
  unfold events in *; simpl in *.
  inversion Hrun as [? ? ? Hp|temp err' w1 t1 ? w2 t2 Hp Hv]; subst.
  { apply prepare_run_spans in Hp.
    pose proof (spans_In _ _ _ _ _ Hp Hin eq_refl) as Hr. simpl in Hr. lia. }
  eapply returned_validation_event in Hin; [|done|reflexivity|simpl; lia].
  inversion Hv; subst; in_cases Hin; simplify_eq;
    (split_and!; [done|in_solve|eexists _, _; split; [reflexivity|in_solve]]).
Qed.

Lemma prepare_run_staged_exists path w temp w1 t :
  prepare_run pkg cmd path w (Done (temp, None), w1, t) ->
  exists e, In e t /\ staged_path e = Some temp.
Proof.
  inversion 1; subst.
  - eexists (EvCreateExecutableCopy _ _ _). split; [in_solve|done].
  - eexists (EvFetchPluginFromURL _ _ _). split; [in_solve|done].
Qed.

(** X8. Whatever the actor is asked to install is the plugin that validation
    returned, at the path that was validated, and that path is the one a
    staging call of the same run handed back: the user's own file is never
    the one installed from. *)
Theorem install_uses_validated_copy w path plugin err :
  In (EvInstallPluginFromPath path plugin err) (events (Execute pkg cmd w)) ->
  In (EvGetAndValidatePlugin path plugin None) (events (Execute pkg cmd w)) /\
  exists e, In e (events (Execute pkg cmd w)) /\ staged_path e = Some path.
Proof.
  intros Hin. attempt_of Hin w Hrun.
  destruct (Execute pkg cmd w) as [[r w'] t].
  unfold events in *; simpl in *.
  inversion Hrun as [? ? ? Hp|temp err' w1 t1 ? w2 t2 Hp Hv]; subst.
  { apply prepare_run_spans in Hp.
    pose proof (spans_In _ _ _ _ _ Hp Hin eq_refl) as Hr. simpl in Hr. lia. }
  eapply returned_validation_event in Hin; [|done|reflexivity|simpl; lia].
  inversion Hv; subst; in_cases Hin; simplify_eq;
    destruct (prepare_run_staged_exists _ _ _ _ _ Hp) as (e & He & Hst);
    (split; [in_solve|exists e; split; [in_solve|done]]).
Qed.

(** X9. With the experimental flag on, [Execute] returns nil exactly when the
    actor's install was called and reported no error. *)
Theorem nil_iff_installed w :
  Experimental (Config cmd) = true ->
  outcome (Execute pkg cmd w) = Done None <->
  exists path plugin,
    In (EvInstallPluginFromPath path plugin None) (events (Execute pkg cmd w)).
Proof.
  intros Hexp.
  destruct (Execute_shape pkg cmd w) as [? _|_ _ Heq|_ _ Hrun]; [congruence| |].
  { rewrite Heq. unfold outcome, events; simpl.
    split; [done|]. by intros (? & ? & []). }
  destruct (Execute pkg cmd w) as [[r w'] t].
  unfold events, outcome in *; simpl in *.
  inversion Hrun as [? ? ? Hp|temp err w1 t1 ? w2 t2 Hp Hv]; subst.
  { split; [done|]. intros (path & plugin & Hin).
    apply prepare_run_spans in Hp.
    pose proof (spans_In _ _ _ _ _ Hp Hin eq_refl) as Hr. simpl in Hr. lia. }
  split.
  - intros ->. inversion Hv; subst; eexists _, _; in_solve.
  - intros (path & plugin & Hin).
    eapply returned_validation_event in Hin; [|done|reflexivity|simpl; lia].
    inversion Hv; subst; in_cases Hin; by simplify_eq.
Qed.

(** X10. An attempt that does not panic ends with exactly one [os.Remove],
    as its last event, and the path removed is the one that every staging call
    of the run handed back. *)
Theorem cleanup_once_and_last w :
  Experimental (Config cmd) = true ->
  PathURLOrPluginName (OptionalArgs cmd) <> "" ->
  (forall reason, outcome (Execute pkg cmd w) <> Panicked reason) ->
  exists t temp,
    events (Execute pkg cmd w) = t ++ [EvRemove temp] /\
    Forall (fun e => state_of e <> Some Finished) t /\
    forall e p, In e t -> staged_path e = Some p -> p = temp.
Proof.
  intros Hexp Harg Hnp.
  destruct (Execute_shape pkg cmd w) as [? _|_ ? _|_ _ Hrun]; [congruence..|].
  destruct (Execute pkg cmd w) as [[r w'] t].
  unfold events, outcome in *; simpl in *.
  inversion Hrun as [? ? ? Hp|temp err w1 t1 ? w2 t2 Hp Hv]; subst.
  { by destruct (Hnp reason). }
  exists (t1 ++ t2), temp. split_and!.
  - by rewrite <- app_assoc.
  - apply (spans_not_finished 0 6); [|lia].
    apply (spans_app 0 2 3 6); [by eapply prepare_run_spans
                               |by eapply validate_run_spans|lia].
  - intros e p Hin Hst. in_cases Hin.
    + apply (prepare_run_staged _ _ _ _ _ _ _ _ _ Hp Hin Hst).
    + apply validate_run_spans in Hv.
      pose proof (spans_In _ _ _ _ _ Hv Hin (staged_path_state _ _ Hst)) as Hr.
      simpl in Hr. lia.
Qed.

(** X11. [Execute] never repeats an interaction: a run has at most one
    prompt, one staging call, one uninstall and one install. *)
Theorem no_interaction_repeated w :
  (length (List.filter is_prompt (events (Execute pkg cmd w))) <= 1)%nat /\
  (length (List.filter is_staging (events (Execute pkg cmd w))) <= 1)%nat /\
  (length (List.filter is_uninstall (events (Execute pkg cmd w))) <= 1)%nat /\
  (length (List.filter is_install (events (Execute pkg cmd w))) <= 1)%nat.
Proof.
  destruct (Execute_shape pkg cmd w) as [_ Heq|_ _ Heq|_ _ Hrun];
    [rewrite Heq; simpl; lia..|].
  destruct (Execute pkg cmd w) as [[r w'] t]. unfold events; simpl.
  assert (forall path w0 r0 w1 t1,
             prepare_run pkg cmd path w0 (r0, w1, t1) ->
             (length (List.filter is_prompt t1) <= 1)%nat /\
             (length (List.filter is_staging t1) <= 1)%nat /\
             List.filter is_uninstall t1 = [] /\ List.filter is_install t1 = [])
    as Hprep.
  { intros path w0 r0 w1 t1 Hp.
    inversion Hp; subst;
      try match goal with
          | Hq : prompt_run _ _ _ _ _ |- _ => inversion Hq; subst
          end;
      simpl; split_and!; (done || lia). }
  assert (forall pluginPath temp w0 err r0 w1 t2,
             validate_run pkg cmd pluginPath temp w0 err (r0, w1, t2) ->
             List.filter is_prompt t2 = [] /\ List.filter is_staging t2 = [] /\
             (length (List.filter is_uninstall t2) <= 1)%nat /\
             (length (List.filter is_install t2) <= 1)%nat)
    as Hval.
  { intros pluginPath temp w0 err r0 w1 t2 Hv.
    inversion Hv; subst;
      try match goal with
          | |- context [install_events _ _ _ ?x] => destruct x
          end;
      simpl; split_and!; (done || lia). }
  inversion Hrun as [? ? ? Hp|temp err w1 t1 ? w2 t2 Hp Hv]; subst.
  { destruct (Hprep _ _ _ _ _ Hp) as (? & ? & -> & ->). simpl. lia. }
  destruct (Hprep _ _ _ _ _ Hp) as (? & ? & Hu1 & Hi1).
  destruct (Hval _ _ _ _ _ _ _ Hv) as (Hp2 & Hs2 & ? & ?).
  rewrite !List.filter_app, !length_app, Hu1, Hi1, Hp2, Hs2. simpl. lia.
Qed.

End Further.

Section FurtherRuns.

Import Demo Faulty.

Ltac in_compute :=
  apply list_elem_of_In; apply (bool_decide_unpack _); vm_compute; exact I.

(** Witness of X1: a file that is not a plugin is staged, rejected by the
    validation and removed; the world ends as it began. *)
Lemma attempt_without_commit_preserves_witness :
  preserves junk_world
    (final_world (Execute demoPackages (demoCommand "/downloads/junk" true true)
                    junk_world)).
Proof.
  apply (attempt_without_commit_preserves demoPackages
           (demoCommand "/downloads/junk" true true) junk_world);
    [reflexivity|apply demo_keeps_installation|].
  apply (bool_decide_unpack _). vm_compute. exact I.
Defined.

(** Witness of X2. *)
Lemma copy_error_propagates_witness :
  outcome (Execute demoPackages
             (mkCommand (mkArgs "/downloads/echo") false "" demoUI (mkConfig true)
                brokenCopyActor)
             (fresh_world true)) = Done (Some (CollaboratorError "copy failed")).
Proof.
  apply (copy_error_propagates demoPackages
           (mkCommand (mkArgs "/downloads/echo") false "" demoUI (mkConfig true)
              brokenCopyActor)
           (fresh_world true) "/downloads/echo" "" (CollaboratorError "copy failed")).
  in_compute.
Defined.

(** Witness of X3: the prompt answers yes together with an error. *)
Lemma prompt_error_propagates_witness :
  outcome (Execute demoPackages
             (mkCommand (mkArgs "/downloads/echo") false "" closedUI (mkConfig true)
                demoActor)
             (fresh_world true)) = Done (Some (CollaboratorError "EOF")).
Proof.
  apply (prompt_error_propagates demoPackages
           (mkCommand (mkArgs "/downloads/echo") false "" closedUI (mkConfig true)
              demoActor)
           (fresh_world true) false file_prompt (path_var "/downloads/echo") true
           (CollaboratorError "EOF")).
  in_compute.
Defined.

(** Witness of X4. *)
Lemma rpc_failure_stops_witness :
  outcome (Execute noRPCPackages (demoCommand "/downloads/echo" true true)
             (fresh_world true)) = Done (Some (CollaboratorError "no rpc")).
Proof.
  apply (rpc_failure_stops noRPCPackages (demoCommand "/downloads/echo" true true)
           (fresh_world true) (CollaboratorError "no rpc")).
  in_compute.
Defined.

(** Witness of X5: the error names the user's file, not /tmp/plugin. *)
Lemma validation_failure_reported_witness :
  outcome (Execute demoPackages (demoCommand "/downloads/junk" true true) junk_world)
    = Done (Some (PluginInvalidError "/downloads/junk")).
Proof.
  apply (validation_failure_reported demoPackages
           (demoCommand "/downloads/junk" true true) junk_world
           "/tmp/plugin" no_plugin (PluginInvalidError "/tmp/plugin")).
  in_compute.
Defined.

(** Witness of X6. *)
Lemma force_never_prompts_witness :
  Forall (fun e => is_prompt e = false)
    (events (Execute demoPackages (demoCommand "/downloads/echo" true true)
               (installed_world true))).
Proof.
  apply (force_never_prompts demoPackages (demoCommand "/downloads/echo" true true)).
  reflexivity.
Defined.

(** Witness of X7: a forced reinstallation of echo. *)
Lemma uninstall_requires_force_witness :
  Force (demoCommand "/downloads/echo" true true) = true /\
  In (EvIsPluginInstalled "echo" true)
    (events (Execute demoPackages (demoCommand "/downloads/echo" true true)
               (installed_world true))).
Proof.
  destruct (uninstall_requires_force demoPackages
              (demoCommand "/downloads/echo" true true) (installed_world true)
              "echo" None) as (Hforce & Hinst & _); [in_compute|].
  by split.
Defined.

(** Witness of X8: a first installation. *)
Lemma install_uses_validated_copy_witness :
  In (EvGetAndValidatePlugin "/tmp/plugin" echo None)
    (events (Execute demoPackages (demoCommand "/downloads/echo" false true)
               (fresh_world true))).
Proof.
  apply (install_uses_validated_copy demoPackages
           (demoCommand "/downloads/echo" false true) (fresh_world true)
           "/tmp/plugin" echo None).
  in_compute.
Defined.

(** Witness of X9. *)
Lemma nil_iff_installed_witness :
  outcome (Execute demoPackages (demoCommand "/downloads/echo" false true)
             (fresh_world true)) = Done None.
Proof.
  apply (nil_iff_installed demoPackages (demoCommand "/downloads/echo" false true)
           (fresh_world true)); [reflexivity|].
  exists "/tmp/plugin", echo. in_compute.
Defined.

(** Witness of X10. *)
Lemma cleanup_once_and_last_witness :
  exists t temp,
    events (Execute demoPackages (demoCommand "/downloads/echo" false true)
              (fresh_world true)) = t ++ [EvRemove temp] /\
    Forall (fun e => state_of e <> Some Finished) t.
Proof.
  destruct (cleanup_once_and_last demoPackages
              (demoCommand "/downloads/echo" false true) (fresh_world true))
    as (t & temp & Heq & Hall & _); [reflexivity|done|done|].
  by exists t, temp.
Defined.

End FurtherRuns.

(** * Properties of the stack actions *)

Section StackProperties.

Import V2Action.

Context {Stack QueryFilter QueryOperator : Type}.
Variable emptyStack : Stack.
Variable NameFilter : QueryFilter.
Variable EqualOperator : QueryOperator.
Variable client : @CloudControllerClient Stack QueryFilter QueryOperator.

(** X12. [GetStack] never hands the client's resource-not-found error on:
    when the client answers with it, [GetStack] returns the empty stack, the
    client's warnings and a [StackNotFoundError] that carries the GUID asked
    for; any other answer of the client is returned as it is.  So the
    client's warnings always come back unchanged, and the error is nil
    exactly when the client's is, in which case the stack is the client's. *)
Theorem GetStack_translates_not_found guid :
  (forall m, (GetStack emptyStack client guid).2 <> Some (ResourceNotFoundError m)) /\
  (GetStack emptyStack client guid).1.2 = (client_GetStack client guid).1.2 /\
  ((GetStack emptyStack client guid).2 = None <->
   (client_GetStack client guid).2 = None) /\
  ((client_GetStack client guid).2 = None ->
   (GetStack emptyStack client guid).1.1 = (client_GetStack client guid).1.1) /\
  (forall m,
      (client_GetStack client guid).2 = Some (ResourceNotFoundError m) ->
      GetStack emptyStack client guid =
        (emptyStack, (client_GetStack client guid).1.2,
         Some (ErrStackNotFound (mkStackNotFound "" guid)))) /\
  ((forall m, (client_GetStack client guid).2 <> Some (ResourceNotFoundError m)) ->
   GetStack emptyStack client guid = client_GetStack client guid).
Proof.
  unfold GetStack.
  destruct (client_GetStack client guid) as [[stack warnings] [[m|e|msg]|]];
    simpl; split_and!; try done; try (by intros ? [=]).
  intros Hnot. by destruct (Hnot m).
Qed.

(** X13. [GetStackByName] returns a nil error exactly when the client
    reported no error and at least one stack, and then it returns the first
    stack of the client's list; whenever it returns an error the stack is the
    empty one.  The client's warnings come back unchanged. *)
Theorem GetStackByName_first_match stackName :
  let asked := client_GetStacks client [mkQuery NameFilter EqualOperator stackName] in
  let got := GetStackByName emptyStack NameFilter EqualOperator client stackName in
  (got.2 = None <-> asked.2 = None /\ asked.1.1 <> []) /\
  (got.2 = None -> head asked.1.1 = Some got.1.1) /\
  (got.2 <> None -> got.1.1 = emptyStack) /\
  got.1.2 = asked.1.2.
Proof.
  unfold GetStackByName. simpl.
  destruct (client_GetStacks client _) as [[[|first rest] warnings] [e|]];
    simpl; split_and!; try done;
    (split; [by intros [=]|by intros [? ?]]).
Qed.

(** X14. When no stack has the name asked for, the error of [GetStackByName]
    records the name, but its message is the fixed text with an empty GUID and
    does not mention the name. *)
Theorem GetStackByName_not_found_message stackName warnings :
  client_GetStacks client [mkQuery NameFilter EqualOperator stackName]
    = ([], warnings, None) ->
  exists e,
    GetStackByName emptyStack NameFilter EqualOperator client stackName
      = (emptyStack, warnings, Some (ErrStackNotFound e)) /\
    Name e = stackName /\
    Error e = "Stack with GUID '' not found.".
Proof.
  intros Hnone. unfold GetStackByName. rewrite Hnone.
  by eexists.
Qed.

End StackProperties.

(** Witness of X12: a client that knows one stack is asked for an unknown
    GUID. *)
Lemma GetStack_translates_not_found_witness :
  V2Action.GetStack ("", "") (V2Action.listClient [("guid-1", "cflinuxfs2")]) "guid-2"
    = (("", ""), ["looked up"],
       Some (V2Action.ErrStackNotFound (V2Action.mkStackNotFound "" "guid-2"))).
Proof.
  destruct (GetStack_translates_not_found ("", "")
              (V2Action.listClient [("guid-1", "cflinuxfs2")]) "guid-2")
    as (_ & _ & _ & _ & Hnot & _).
  apply (Hnot "no such stack"). reflexivity.
Defined.

(** Witness of X14: a client that knows one stack is asked for another. *)
Lemma GetStackByName_not_found_message_witness :
  exists e,
    V2Action.GetStackByName ("", "") tt tt
      (V2Action.listClient [("guid-1", "cflinuxfs2")]) "windows"
      = (("", ""), ["listed"], Some (V2Action.ErrStackNotFound e)) /\
    V2Action.Name e = "windows" /\
    V2Action.Error e = "Stack with GUID '' not found.".
Proof.
  apply (GetStackByName_not_found_message ("", "") tt tt
           (V2Action.listClient [("guid-1", "cflinuxfs2")]) "windows" ["listed"]).
  reflexivity.
Defined.
